(** * star_distance: the nearby-stars pipeline

    A shallow embedding of [star_distance.py] (the single-shot script) and
    [star_distance_gui.py] (the Qt front end), and the properties of the
    query, the projection and the size/colour mapping they compute.

    Numbers.  The programs compute with numpy's float64.  The main embedding
    keeps IEEE's special values (the infinities and NaN, with their rules for
    division by zero, propagation and comparison) and computes exactly on the
    finite ones: rounding, overflow and underflow of finite results and the
    sign of zero are not modelled there.  What is proved on it is either
    true of the rounded results as well (orders, signs, which rows are kept,
    which calls are made) or is stated for exact arithmetic.  Module
    [Binary64] evaluates the same lines in IEEE binary64 itself, and shows
    where rounding and overflow make the program differ from the exact
    reading.

    Calls.  A run records, in order, the calls the programs make on the
    catalog, the console and matplotlib.  The exceptions modelled are the
    programs' own: [float] on unreadable text and the reduction of an empty
    array.  Whether matplotlib then fails on what it is given (limits that
    are not finite, markers of size NaN) is not modelled. *)

From Stdlib Require Import Reals Lra List Bool ZArith NArith Ascii String.
From Stdlib Require Import PrimFloat.
Import ListNotations.

Local Open Scope R_scope.

(** ** Numbers: exact reals with IEEE special values *)

Inductive num : Type :=
| Num (r : R)
| PInf
| NInf
| NaN.

Definition Rltb (a b : R) : bool := if Rlt_dec a b then true else false.
Definition Reqb (a b : R) : bool := if Req_dec_T a b then true else false.

(** Sign of a real, and the infinity of that sign (NaN for zero: 0 * inf,
    0 / 0). *)
Definition sgn (r : R) : comparison :=
  if Rltb 0 r then Gt else if Rltb r 0 then Lt else Eq.

Definition inf_of (c : comparison) : num :=
  match c with Gt => PInf | Lt => NInf | Eq => NaN end.

Definition fneg (a : num) : num :=
  match a with
  | Num r => Num (- r)
  | PInf => NInf
  | NInf => PInf
  | NaN => NaN
  end.

Definition fadd (a b : num) : num :=
  match a, b with
  | NaN, _ | _, NaN => NaN
  | Num x, Num y => Num (x + y)
  | PInf, NInf | NInf, PInf => NaN
  | PInf, _ | _, PInf => PInf
  | NInf, _ | _, NInf => NInf
  end.

Definition fsub (a b : num) : num := fadd a (fneg b).

Definition fmul (a b : num) : num :=
  match a, b with
  | NaN, _ | _, NaN => NaN
  | Num x, Num y => Num (x * y)
  | Num x, PInf | PInf, Num x => inf_of (sgn x)
  | Num x, NInf | NInf, Num x => inf_of (sgn (- x))
  | PInf, PInf | NInf, NInf => PInf
  | PInf, NInf | NInf, PInf => NInf
  end.

(** numpy's true division: a zero divisor gives an infinity, or NaN for 0/0
    (with a RuntimeWarning, never an exception). *)
Definition fdiv (a b : num) : num :=
  match a, b with
  | NaN, _ | _, NaN => NaN
  | Num x, Num y => if Reqb y 0 then inf_of (sgn x) else Num (x / y)
  | Num _, (PInf | NInf) => Num 0
  | PInf, Num y => if Rltb y 0 then NInf else PInf
  | NInf, Num y => if Rltb y 0 then PInf else NInf
  | (PInf | NInf), (PInf | NInf) => NaN
  end.

(** [a < b]; every comparison with NaN is False. *)
Definition fltb (a b : num) : bool :=
  match a, b with
  | NaN, _ | _, NaN => false
  | Num x, Num y => Rltb x y
  | NInf, (Num _ | PInf) => true
  | Num _, PInf => true
  | _, _ => false
  end.

Definition fgtb (a b : num) : bool := fltb b a.

Definition is_nan (a : num) : bool :=
  match a with NaN => true | _ => false end.

Definition fcos (a : num) : num :=
  match a with Num r => Num (cos r) | _ => NaN end.

Definition fsin (a : num) : num :=
  match a with Num r => Num (sin r) | _ => NaN end.

(** ** numpy arrays as lists *)

Module np.

(** [np.radians]: degrees times pi/180. *)
Definition radians (a : list num) : list num :=
  map (fun d => fmul d (Num (PI / 180))) a.

Definition cos (a : list num) : list num := map fcos a.
Definition sin (a : list num) : list num := map fsin a.

(** [a > c] for an array and a scalar: the boolean mask. *)
Definition gt (a : list num) (c : num) : list bool :=
  map (fun v => fgtb v c) a.

(** [a[mask]]: the elements where the mask is True, in order.  The two
    always have the same length here (columns of one table). *)
Fixpoint index {A : Type} (a : list A) (mask : list bool) : list A :=
  match a, mask with
  | v :: a', b :: mask' => if b then v :: index a' mask' else index a' mask'
  | _, _ => []
  end.

(** Element-wise product of two arrays of the same shape. *)
Fixpoint mul (a b : list num) : list num :=
  match a, b with
  | v :: a', w :: b' => fmul v w :: mul a' b'
  | _, _ => []
  end.

(** Scalar on the left or right of an array (broadcast). *)
Definition rdiv (c : num) (a : list num) : list num := map (fdiv c) a.
Definition rsub (c : num) (a : list num) : list num := map (fsub c) a.
Definition sub_s (a : list num) (c : num) : list num :=
  map (fun v => fsub v c) a.
Definition div_s (a : list num) (c : num) : list num :=
  map (fun v => fdiv v c) a.
Definition mul_s (a : list num) (c : num) : list num :=
  map (fun v => fmul v c) a.
Definition add_s (a : list num) (c : num) : list num :=
  map (fun v => fadd v c) a.

(** The reductions propagate NaN. *)
Definition minimum (a b : num) : num :=
  if is_nan a then a else if is_nan b then b
  else if fltb b a then b else a.

Definition maximum (a b : num) : num :=
  if is_nan a then a else if is_nan b then b
  else if fltb a b then b else a.

(** [a.min()], [a.max()]: [None] stands for the ValueError numpy raises
    on a zero-size array. *)
Definition min (a : list num) : option num :=
  match a with
  | [] => None
  | v :: a' => Some (fold_left minimum a' v)
  end.

Definition max (a : list num) : option num :=
  match a with
  | [] => None
  | v :: a' => Some (fold_left maximum a' v)
  end.

End np.

(** ** The catalog's result table *)

(** One row of [SELECT source_id, ra, dec, parallax]: angles in degrees,
    parallax possibly NULL. *)
Record CatalogRow : Type := mkRow {
  source_id : Z;
  ra : R;
  dec : R;
  parallax : option R
}.

Definition ResultSet : Type := list CatalogRow.

(** A NULL cell of a float column reads as NaN. *)
Definition cell (v : option R) : num :=
  match v with Some r => Num r | None => NaN end.

(** [result_table['parallax']], [['ra']], [['dec']]. *)
Definition col_parallax (t : ResultSet) : list num :=
  map (fun r => cell (parallax r)) t.
Definition col_ra (t : ResultSet) : list num := map (fun r => Num (ra r)) t.
Definition col_dec (t : ResultSet) : list num := map (fun r => Num (dec r)) t.

(** ** astropy units *)

Inductive Unit : Type := lyr | pc.

(** A scalar [Quantity]: a value tagged with its unit. *)
Record Quantity : Type := mkQuantity {
  value : num;
  unit_ : Unit
}.

(** One light-year in parsecs: c times a Julian year, over 648000/pi
    astronomical units (the IAU definitions astropy uses). *)
Definition lyr_in_pc : R :=
  (299792458 * 31557600) / (149597870700 * 648000 / PI).

(** [q.to(u.pc)] *)
Definition to_pc (q : Quantity) : Quantity :=
  match unit_ q with
  | pc => q
  | lyr => mkQuantity (fmul (value q) (Num lyr_in_pc)) pc
  end.

(** ** Python's [float(text)]

    After CPython's [PyFloat_FromString], on ASCII text: underscores are
    checked and removed, white space is stripped at both ends, and what is
    left must be a decimal literal, or inf, infinity or nan in any case, with
    an optional sign.  [None] stands for the ValueError.  Text with
    characters outside ASCII (digits and spaces of other scripts, which
    Python also reads) is outside this model, and the value read is the
    exact decimal: its rounding to binary64, with overflow to an infinity
    and underflow to zero, is not modelled. *)

Module pyfloat.

Local Open Scope bool_scope.
Local Open Scope char_scope.

Inductive literal : Type :=
| LNum (neg : bool) (mant : N) (exp10 : Z)
| LInf (neg : bool)
| LNaN.

Definition is_digit (c : ascii) : bool :=
  let n := nat_of_ascii c in (48 <=? n)%nat && (n <=? 57)%nat.

Definition digit_val (c : ascii) : N := N.of_nat (nat_of_ascii c - 48).

(** White space of ASCII text for [float]: tab, line feed, vertical tab,
    form feed, carriage return and the space. *)
Definition is_space (c : ascii) : bool :=
  let n := nat_of_ascii c in
  ((9 <=? n)%nat && (n <=? 13)%nat) || (n =? 32)%nat.

(** An ASCII character. *)
Definition is_ascii (c : ascii) : bool := (nat_of_ascii c <? 128)%nat.

(** The characters 9-13 and 28-32: the white space above and the four
    separators that [str.isspace] also counts. *)
Definition is_blank (c : ascii) : bool :=
  let n := nat_of_ascii c in
  ((9 <=? n)%nat && (n <=? 13)%nat) || ((28 <=? n)%nat && (n <=? 32)%nat).

Definition lower (c : ascii) : ascii :=
  let n := nat_of_ascii c in
  if (65 <=? n)%nat && (n <=? 90)%nat then ascii_of_nat (n + 32) else c.

(** Underscores: only between two digits; removed.  [prev] is the previous
    character of the text. *)
Fixpoint underscores (prev : ascii) (s : list ascii) : option (list ascii) :=
  match s with
  | [] => if Ascii.eqb prev "_" then None else Some []
  | c :: s' =>
      if Ascii.eqb c "_" then
        if is_digit prev then underscores c s' else None
      else if Ascii.eqb prev "_" && negb (is_digit c) then None
      else option_map (cons c) (underscores c s')
  end.

Fixpoint lstrip (s : list ascii) : list ascii :=
  match s with
  | c :: s' => if is_space c then lstrip s' else s
  | [] => []
  end.

Definition strip (s : list ascii) : list ascii :=
  rev (lstrip (rev (lstrip s))).

Definition sign (s : list ascii) : bool * list ascii :=
  match s with
  | "-" :: s' => (true, s')
  | "+" :: s' => (false, s')
  | _ => (false, s)
  end.

(** A run of digits: the number they add to [acc], how many, the rest. *)
Fixpoint digits (s : list ascii) (acc : N) (n : nat)
  : N * nat * list ascii :=
  match s with
  | c :: s' =>
      if is_digit c then digits s' (10 * acc + digit_val c)%N (S n)
      else (acc, n, s)
  | [] => (acc, n, s)
  end.

(** [digits] [. digits] with at least one digit: mantissa, decimal
    exponent, rest. *)
Definition number (s : list ascii) : option (N * Z * list ascii) :=
  let '(m1, n1, r1) := digits s 0%N 0%nat in
  match r1 with
  | "." :: r2 =>
      let '(m2, n2, r3) := digits r2 m1 0%nat in
      if (n1 + n2 =? 0)%nat then None
      else Some (m2, (- Z.of_nat n2)%Z, r3)
  | _ => if (n1 =? 0)%nat then None else Some (m1, 0%Z, r1)
  end.

(** The rest of the literal: nothing, or e/E, an optional sign and at
    least one digit, up to the end. *)
Definition exponent (s : list ascii) : option Z :=
  match s with
  | [] => Some 0%Z
  | c :: r =>
      if Ascii.eqb (lower c) "e" then
        let (neg, r') := sign r in
        let '(m, n, r'') := digits r' 0%N 0%nat in
        match n, r'' with
        | S _, [] => Some (if neg then (- Z.of_N m)%Z else Z.of_N m)
        | _, _ => None
        end
      else None
  end.

Definition parse (text : string) : option literal :=
  match underscores "000" (list_ascii_of_string text) with
  | None => None
  | Some s =>
      let (neg, body) := sign (strip s) in
      let word := string_of_list_ascii (map lower body) in
      if (word =? "inf")%string || (word =? "infinity")%string
      then Some (LInf neg)
      else if (word =? "nan")%string then Some LNaN
      else
        match number body with
        | None => None
        | Some (m, e, rest) =>
            match exponent rest with
            | None => None
            | Some e' => Some (LNum neg m (e + e')%Z)
            end
        end
  end.

Definition to_num (l : literal) : num :=
  match l with
  | LNum neg m e =>
      Num (IZR (if neg then (- Z.of_N m)%Z else Z.of_N m) * powerRZ 10 e)
  | LInf neg => if neg then NInf else PInf
  | LNaN => NaN
  end.

End pyfloat.

(** [float(text)] *)
Definition float (text : string) : option num :=
  option_map pyfloat.to_num (pyfloat.parse text).

(** ** What the programs do to the outside world *)

(** An f-string before its values are formatted: literal text and
    interpolated numbers.  The program writes each number as the shortest
    decimal that reads back as the same binary64 number; that text is not
    modelled. *)
Inductive frag : Type :=
| Lit (s : string)
| Fmt (v : num).

Definition fstring : Type := list frag.

(** The colour [plt.cm.coolwarm] gives to a scalar. *)
Inductive color : Type :=
| coolwarm (t : num).

(** The calls on the catalog service, the console and matplotlib, in the
    order they are made.  [decorate] stands for the axis labels, the title,
    the legend, the colour bar, the ticks and the grid. *)
Inductive call : Type :=
| launch_job (query : fstring)
| print (s : string)
| subplots (w h : R)
| clf
| add_subplot
| ax_clear
| sun_glow (radius : R)
| scatter_sun (s : R)
| scatter_stars (x y : list num) (c : list color) (s : list num)
| set_xlim (lo hi : num)
| set_ylim (lo hi : num)
| decorate (title : Quantity)
| show
| canvas_draw.

Inductive exn : Type :=
| ValueError (msg : string).

(** The catalog service: the table it answers a query with. *)
Definition Catalog : Type := fstring -> ResultSet.

(** A run: the calls made, and an exception or the value returned. *)
Record run (A : Type) : Type := mkRun {
  calls : list call;
  outcome : exn + A
}.
Arguments mkRun {A} _ _.
Arguments calls {A} _.
Arguments outcome {A} _.

Definition M (A : Type) : Type := Catalog -> run A.

Definition ret {A : Type} (a : A) : M A := fun _ => mkRun [] (inr a).

Definition bind {A B : Type} (m : M A) (f : A -> M B) : M B :=
  fun gaia =>
    let r := m gaia in
    match outcome r with
    | inl e => mkRun (calls r) (inl e)
    | inr a => let r' := f a gaia in mkRun (calls r ++ calls r') (outcome r')
    end.

Definition raise {A : Type} (e : exn) : M A := fun _ => mkRun [] (inl e).

Definition lift {A : Type} (v : exn + A) : M A := fun _ => mkRun [] v.

Definition do_ (c : call) : M unit := fun _ => mkRun [c] (inr tt).

(** [Gaia.launch_job(query).get_results()] *)
Definition get_results (query : fstring) : M ResultSet :=
  fun gaia => mkRun [launch_job query] (inr (gaia query)).

Notation "x <- m ;; k" := (bind m (fun x => k))
  (at level 61, m at next level, right associativity).
Notation "m ;; k" := (bind m (fun _ => k))
  (at level 61, right associativity).

Definition LF : string := String "010" "".
Definition TAB : string := String "009" "".

Definition empty_reduction : exn :=
  ValueError
    "zero-size array to reduction operation minimum which has no identity".

Definition not_a_float : exn :=
  ValueError "could not convert string to float".

(** ** star_distance.py *)

Module Script.

(** [max_distance.to(u.pc).value] *)
Definition max_distance_pc (max_distance : Quantity) : num :=
  value (to_pc max_distance).

(** The query text, lines 14-18. *)
Definition query (max_distance : Quantity) : fstring :=
  [ Lit (LF ++ TAB ++ "SELECT source_id, ra, dec, parallax"
         ++ LF ++ TAB ++ "FROM gaiadr2.gaia_source"
         ++ LF ++ TAB ++ "WHERE parallax >= ");
    Fmt (fdiv (Num 1) (max_distance_pc max_distance));
    Lit (" AND parallax IS NOT NULL" ++ LF ++ TAB) ].

(** Lines 27-29. *)
Definition parallaxes (result_table : ResultSet) : list num :=
  col_parallax result_table.

Definition valid_parallaxes (result_table : ResultSet) : list bool :=
  np.gt (parallaxes result_table) (Num 0).

Definition distances (result_table : ResultSet) : list num :=
  np.rdiv (Num 1)
    (np.index (parallaxes result_table) (valid_parallaxes result_table)).

(** Lines 32-33. *)
Definition ra_rad (result_table : ResultSet) : list num :=
  np.radians (np.index (col_ra result_table) (valid_parallaxes result_table)).

Definition dec_rad (result_table : ResultSet) : list num :=
  np.radians (np.index (col_dec result_table) (valid_parallaxes result_table)).

(** Lines 36-37. *)
Definition x (result_table : ResultSet) : list num :=
  np.mul (np.mul (distances result_table) (np.cos (dec_rad result_table)))
    (np.cos (ra_rad result_table)).

Definition y (result_table : ResultSet) : list num :=
  np.mul (np.mul (distances result_table) (np.cos (dec_rad result_table)))
    (np.sin (ra_rad result_table)).

Definition sun_size : R := 200.
Definition max_star_size : R := 100.
Definition min_star_size : R := 10.

(** Line 52; the reductions raise on an empty array. *)
Definition star_sizes (distances : list num) : exn + list num :=
  match np.min distances, np.max distances with
  | Some dmin, Some dmax =>
      inr (np.add_s
             (np.mul_s
                (np.rsub (Num 1)
                   (np.div_s (np.sub_s distances dmin) (fsub dmax dmin)))
                (Num (max_star_size - min_star_size)))
             (Num min_star_size))
  | _, _ => inl empty_reduction
  end.

(** Line 53. *)
Definition star_colors (distances : list num) : exn + list color :=
  match np.min distances, np.max distances with
  | Some dmin, Some dmax =>
      inr (map coolwarm
             (np.rsub (Num 1)
                (np.div_s (np.sub_s distances dmin) (fsub dmax dmin))))
  | _, _ => inl empty_reduction
  end.

Definition nearby_stars (max_distance : Quantity) : M unit :=
  result_table <- get_results (query max_distance) ;;
  if (List.length result_table =? 0)%nat then
    do_ (print "No nearby stars found within the specified distance.")
  else
    do_ (subplots 10 10) ;;
    do_ (sun_glow (sun_size * 0.7)) ;;
    do_ (scatter_sun sun_size) ;;
    sizes <- lift (star_sizes (distances result_table)) ;;
    colors <- lift (star_colors (distances result_table)) ;;
    do_ (scatter_stars (x result_table) (y result_table) colors sizes) ;;
    do_ (set_xlim (fneg (max_distance_pc max_distance))
           (max_distance_pc max_distance)) ;;
    do_ (set_ylim (fneg (max_distance_pc max_distance))
           (max_distance_pc max_distance)) ;;
    do_ (decorate max_distance) ;;
    do_ show.

(** The module's entry, lines 85-88: [stdin] is the line read by [input]. *)
Definition main (stdin : string) : M unit :=
  match float stdin with
  | None => raise not_a_float
  | Some max_distance_input =>
      nearby_stars (mkQuantity max_distance_input lyr)
  end.

End Script.

(** ** star_distance_gui.py *)

Module Gui.

(** The query text, lines 45-49. *)
Definition query (max_distance_pc : num) : fstring :=
  [ Lit (LF ++ TAB ++ TAB ++ "SELECT source_id, ra, dec, parallax"
         ++ LF ++ TAB ++ TAB ++ "FROM gaiadr2.gaia_source"
         ++ LF ++ TAB ++ TAB ++ "WHERE parallax >= ");
    Fmt (fdiv (Num 1) max_distance_pc);
    Lit (" AND parallax IS NOT NULL" ++ LF ++ TAB ++ TAB) ].

(** Lines 63-65. *)
Definition parallaxes (result_table : ResultSet) : list num :=
  col_parallax result_table.

Definition valid_parallaxes (result_table : ResultSet) : list bool :=
  np.gt (parallaxes result_table) (Num 0).

Definition distances (result_table : ResultSet) : list num :=
  np.rdiv (Num 1)
    (np.index (parallaxes result_table) (valid_parallaxes result_table)).

(** Lines 68-69. *)
Definition ra_rad (result_table : ResultSet) : list num :=
  np.radians (np.index (col_ra result_table) (valid_parallaxes result_table)).

Definition dec_rad (result_table : ResultSet) : list num :=
  np.radians (np.index (col_dec result_table) (valid_parallaxes result_table)).

(** Lines 72-73. *)
Definition x (result_table : ResultSet) : list num :=
  np.mul (np.mul (distances result_table) (np.cos (dec_rad result_table)))
    (np.cos (ra_rad result_table)).

Definition y (result_table : ResultSet) : list num :=
  np.mul (np.mul (distances result_table) (np.cos (dec_rad result_table)))
    (np.sin (ra_rad result_table)).

Definition sun_size : R := 200.
Definition max_star_size : R := 100.
Definition min_star_size : R := 10.

(** Line 87; the reductions raise on an empty array. *)
Definition star_sizes (distances : list num) : exn + list num :=
  match np.min distances, np.max distances with
  | Some dmin, Some dmax =>
      inr (np.add_s
             (np.mul_s
                (np.rsub (Num 1)
                   (np.div_s (np.sub_s distances dmin) (fsub dmax dmin)))
                (Num (max_star_size - min_star_size)))
             (Num min_star_size))
  | _, _ => inl empty_reduction
  end.

(** Line 88. *)
Definition star_colors (distances : list num) : exn + list color :=
  match np.min distances, np.max distances with
  | Some dmin, Some dmax =>
      inr (map coolwarm
             (np.rsub (Num 1)
                (np.div_s (np.sub_s distances dmin) (fsub dmax dmin))))
  | _, _ => inl empty_reduction
  end.

(** The slot of the button; [text] is [self.input_field.text()]. *)
Definition plot_nearby_stars (text : string) : M unit :=
  match float text with
  | None => raise not_a_float
  | Some max_distance_input =>
      let max_distance := mkQuantity max_distance_input lyr in
      let max_distance_pc := value (to_pc max_distance) in
      result_table <- get_results (query max_distance_pc) ;;
      if (List.length result_table =? 0)%nat then
        do_ (print "No nearby stars found within the specified distance.")
      else
        do_ clf ;;
        do_ add_subplot ;;
        do_ ax_clear ;;
        do_ (sun_glow (sun_size * 0.7)) ;;
        do_ (scatter_sun sun_size) ;;
        sizes <- lift (star_sizes (distances result_table)) ;;
        colors <- lift (star_colors (distances result_table)) ;;
        do_ (scatter_stars (x result_table) (y result_table) colors sizes) ;;
        do_ (set_xlim (fneg (value (to_pc max_distance)))
               (value (to_pc max_distance))) ;;
        do_ (set_ylim (fneg (value (to_pc max_distance)))
               (value (to_pc max_distance))) ;;
        do_ (decorate max_distance) ;;
        do_ canvas_draw
  end.

End Gui.

(** ** The same lines in IEEE binary64

    The arithmetic of lines 17 and 27-37 on binary64 numbers, as numpy
    computes it: division, multiplication, addition and the comparisons are
    the IEEE operations.  The columns are lists of binary64 numbers (no
    NULL).  [cos] and [sin] are known here only at the arguments listed in
    two tables, with their correctly rounded values. *)

Module Binary64.

(** Line 17: the number interpolated in the query. *)
Definition min_parallax (max_distance_pc : PrimFloat.float) : PrimFloat.float :=
  PrimFloat.div 1%float max_distance_pc.

(** The WHERE clause on a parallax that is not NULL. *)
Definition where_ (threshold p : PrimFloat.float) : bool :=
  PrimFloat.leb threshold p.

(** [a > c], [c / a] and the product of two arrays. *)
Definition gt (a : list PrimFloat.float) (c : PrimFloat.float) : list bool :=
  map (fun v => PrimFloat.ltb c v) a.

Definition rdiv (c : PrimFloat.float) (a : list PrimFloat.float)
  : list PrimFloat.float :=
  map (PrimFloat.div c) a.

Fixpoint mul (a b : list PrimFloat.float) : list PrimFloat.float :=
  match a, b with
  | v :: a', w :: b' => PrimFloat.mul v w :: mul a' b'
  | _, _ => []
  end.

(** Lines 27-29. *)
Definition distances (parallaxes : list PrimFloat.float)
  : list PrimFloat.float :=
  rdiv 1%float (np.index parallaxes (gt parallaxes 0%float)).

(** [np.radians]: times pi/180, which is 0.017453292519943295 in binary64. *)
Definition pi_180 : PrimFloat.float := 0x1.1df46a2529d39p-6%float.

Definition radians (a : list PrimFloat.float) : list PrimFloat.float :=
  map (fun d => PrimFloat.mul d pi_180) a.

(** cos at 0, at radians(8) = 0.13962634015954636 and at
    radians(1e-9) = 1.7453292519943298e-11; sin at 0 and at radians(8). *)
Definition cos_table : list (PrimFloat.float * PrimFloat.float) :=
  [ (0%float, 1%float);
    (0x1.1df46a2529d39p-3%float, 0x1.fb046a930947ap-1%float);
    (0x1.330aa445be654p-36%float, 1%float) ].

Definition sin_table : list (PrimFloat.float * PrimFloat.float) :=
  [ (0%float, 0%float);
    (0x1.1df46a2529d39p-3%float, 0x1.1d06c968d9e19p-3%float) ].

Fixpoint lookup (table : list (PrimFloat.float * PrimFloat.float))
  (v : PrimFloat.float) : option PrimFloat.float :=
  match table with
  | [] => None
  | (a, r) :: table' =>
      if PrimFloat.Leibniz.eqb a v then Some r else lookup table' v
  end.

(** A function applied to an array, where all its values are known. *)
Fixpoint tabulated (table : list (PrimFloat.float * PrimFloat.float))
  (a : list PrimFloat.float) : option (list PrimFloat.float) :=
  match a with
  | [] => Some []
  | v :: a' =>
      match lookup table v, tabulated table a' with
      | Some r, Some rs => Some (r :: rs)
      | _, _ => None
      end
  end.

Definition cos (a : list PrimFloat.float) : option (list PrimFloat.float) :=
  tabulated cos_table a.

Definition sin (a : list PrimFloat.float) : option (list PrimFloat.float) :=
  tabulated sin_table a.

(** Lines 32-37, on the columns ra, dec and parallax of a table. *)
Definition x (ra dec parallaxes : list PrimFloat.float)
  : option (list PrimFloat.float) :=
  let valid_parallaxes := gt parallaxes 0%float in
  match cos (radians (np.index dec valid_parallaxes)),
        cos (radians (np.index ra valid_parallaxes)) with
  | Some cos_dec, Some cos_ra =>
      Some (mul (mul (distances parallaxes) cos_dec) cos_ra)
  | _, _ => None
  end.

Definition y (ra dec parallaxes : list PrimFloat.float)
  : option (list PrimFloat.float) :=
  let valid_parallaxes := gt parallaxes 0%float in
  match cos (radians (np.index dec valid_parallaxes)),
        sin (radians (np.index ra valid_parallaxes)) with
  | Some cos_dec, Some sin_ra =>
      Some (mul (mul (distances parallaxes) cos_dec) sin_ra)
  | _, _ => None
  end.

(** x^2 + y^2, and d^2. *)
Definition norm2 (u v : PrimFloat.float) : PrimFloat.float :=
  PrimFloat.add (PrimFloat.mul u u) (PrimFloat.mul v v).

Definition square (d : PrimFloat.float) : PrimFloat.float :=
  PrimFloat.mul d d.

Definition below_two : PrimFloat.float := 0x1.ffffffffffffep+0%float.
Definition just_below_two : PrimFloat.float := 0x1.fffffffffffffp+0%float.
Definition hundred_lyr_pc : PrimFloat.float := 0x1.ea8fee4f1b21cp+4%float.
Definition nano_degree : PrimFloat.float := 0x1.12e0be826d695p-30%float.

End Binary64.

(** ** The pipeline of the specification, row by row *)

(** Degrees to radians. *)
Definition deg2rad (a : R) : R := a * (PI / 180).

(** A row is kept when its parallax is present and positive. *)
Definition kept (r : CatalogRow) : bool :=
  match parallax r with
  | Some p => Rltb 0 p
  | None => false
  end.

Definition FilteredSample (t : ResultSet) : ResultSet := filter kept t.

Record ProjectedPoint : Type := mkPoint {
  distance_pc : R;
  px : R;
  py : R
}.

Definition parallax_of (r : CatalogRow) : R :=
  match parallax r with Some p => p | None => 0 end.

(** Steps 3 to 5 of the projection engine, for one kept row. *)
Definition project_row (r : CatalogRow) : ProjectedPoint :=
  let d := 1 / parallax_of r in
  mkPoint d
    (d * cos (deg2rad (dec r)) * cos (deg2rad (ra r)))
    (d * cos (deg2rad (dec r)) * sin (deg2rad (ra r))).

Definition project (t : ResultSet) : list ProjectedPoint :=
  map project_row (FilteredSample t).

(** The mapper of the specification: normalised distance, size, and the
    scalar handed to the colour map. *)
Definition normalized (d_min d_max d : R) : R := (d - d_min) / (d_max - d_min).
Definition max_size : R := 100.
Definition min_size : R := 10.
Definition size_of (n : R) : R := (1 - n) * (max_size - min_size) + min_size.
Definition color_of (n : R) : R := 1 - n.

(** The WHERE clause of the query, read on a row:
    [parallax >= threshold AND parallax IS NOT NULL]. *)
Definition fgeb (a b : num) : bool := fltb b a || match a, b with
  | Num u, Num v => Reqb u v
  | PInf, PInf | NInf, NInf => true
  | _, _ => false
  end.

Definition where_ (threshold : num) (r : CatalogRow) : bool :=
  match parallax r with
  | Some p => fgeb (Num p) threshold
  | None => false
  end.

(** The number interpolated in a query. *)
Definition min_parallax (query : fstring) : option num :=
  match query with
  | [Lit _; Fmt v; Lit _] => Some v
  | _ => None
  end.

(** A text without its tab characters. *)
Fixpoint untab (s : string) : string :=
  match s with
  | EmptyString => EmptyString
  | String c s' => if Ascii.eqb c "009" then untab s' else String c (untab s')
  end.

Definition untab_frag (f : frag) : frag :=
  match f with Lit s => Lit (untab s) | Fmt v => Fmt v end.

(** The calls that draw: everything but the query and the console. *)
Definition is_rendering (c : call) : bool :=
  match c with
  | launch_job _ | print _ => false
  | _ => true
  end.

Definition is_query (c : call) : bool :=
  match c with launch_job _ => true | _ => false end.

(** A catalog that holds the rows [db] and answers a query with those its
    WHERE clause selects. *)
Definition catalog_of (db : ResultSet) : Catalog :=
  fun query =>
    match min_parallax query with
    | Some threshold => filter (where_ threshold) db
    | None => []
    end.

(** What a run shows the user: the console and the drawing, without the
    query and without the handling of the figure (created and shown by the
    script, cleared and redrawn by the front end). *)
Definition is_shown (c : call) : bool :=
  match c with
  | print _ | sun_glow _ | scatter_sun _ | scatter_stars _ _ _ _
  | set_xlim _ _ | set_ylim _ _ | decorate _ => true
  | _ => false
  end.

Definition shown (cs : list call) : list call := filter is_shown cs.

(** The call that draws the stars. *)
Definition is_stars (c : call) : bool :=
  match c with scatter_stars _ _ _ _ => true | _ => false end.

(** ** The runs of the two programs, call by call *)

(** What [nearby_stars] does when the catalog answers with the table [t]. *)
Definition script_run (q : Quantity) (t : ResultSet) : run unit :=
  if (List.length t =? 0)%nat then
    mkRun [ launch_job (Script.query q);
            print "No nearby stars found within the specified distance." ]
      (inr tt)
  else
    match Script.star_sizes (Script.distances t),
          Script.star_colors (Script.distances t) with
    | inr s, inr c =>
        mkRun [ launch_job (Script.query q);
                subplots 10 10;
                sun_glow (Script.sun_size * 0.7);
                scatter_sun Script.sun_size;
                scatter_stars (Script.x t) (Script.y t) c s;
                set_xlim (fneg (Script.max_distance_pc q))
                  (Script.max_distance_pc q);
                set_ylim (fneg (Script.max_distance_pc q))
                  (Script.max_distance_pc q);
                decorate q;
                show ]
          (inr tt)
    | inl e, _ | inr _, inl e =>
        mkRun [ launch_job (Script.query q);
                subplots 10 10;
                sun_glow (Script.sun_size * 0.7);
                scatter_sun Script.sun_size ]
          (inl e)
    end.

(** The same for the slot of the front end, once the text has been read as
    the number [v]. *)
Definition gui_run (v : num) (t : ResultSet) : run unit :=
  if (List.length t =? 0)%nat then
    mkRun [ launch_job (Gui.query (value (to_pc (mkQuantity v lyr))));
            print "No nearby stars found within the specified distance." ]
      (inr tt)
  else
    match Gui.star_sizes (Gui.distances t),
          Gui.star_colors (Gui.distances t) with
    | inr s, inr c =>
        mkRun [ launch_job (Gui.query (value (to_pc (mkQuantity v lyr))));
                clf;
                add_subplot;
                ax_clear;
                sun_glow (Gui.sun_size * 0.7);
                scatter_sun Gui.sun_size;
                scatter_stars (Gui.x t) (Gui.y t) c s;
                set_xlim (fneg (value (to_pc (mkQuantity v lyr))))
                  (value (to_pc (mkQuantity v lyr)));
                set_ylim (fneg (value (to_pc (mkQuantity v lyr))))
                  (value (to_pc (mkQuantity v lyr)));
                decorate (mkQuantity v lyr);
                canvas_draw ]
          (inr tt)
    | inl e, _ | inr _, inl e =>
        mkRun [ launch_job (Gui.query (value (to_pc (mkQuantity v lyr))));
                clf;
                add_subplot;
                ax_clear;
                sun_glow (Gui.sun_size * 0.7);
                scatter_sun Gui.sun_size ]
          (inl e)
    end.

(** ** Comparisons on reals *)

Lemma Rltb_true (a b : R) : a < b -> Rltb a b = true.
Proof. intros H. unfold Rltb. destruct (Rlt_dec a b); [reflexivity | contradiction]. Qed.

Lemma Rltb_false (a b : R) : b <= a -> Rltb a b = false.
Proof. intros H. unfold Rltb. destruct (Rlt_dec a b); [lra | reflexivity]. Qed.

Lemma Rltb_lt (a b : R) : Rltb a b = true -> a < b.
Proof. unfold Rltb. destruct (Rlt_dec a b); [trivial | discriminate]. Qed.

Lemma Rltb_ge (a b : R) : Rltb a b = false -> b <= a.
Proof. unfold Rltb. destruct (Rlt_dec a b); [discriminate | lra]. Qed.

Lemma Reqb_true (a b : R) : a = b -> Reqb a b = true.
Proof. intros H. unfold Reqb. destruct (Req_dec_T a b); [reflexivity | contradiction]. Qed.

Lemma Reqb_false (a b : R) : a <> b -> Reqb a b = false.
Proof. intros H. unfold Reqb. destruct (Req_dec_T a b); [contradiction | reflexivity]. Qed.

Lemma fdiv_Num (a b : R) : b <> 0 -> fdiv (Num a) (Num b) = Num (a / b).
Proof. intros H. simpl. now rewrite Reqb_false. Qed.

Lemma fdiv_zero_zero : fdiv (Num 0) (Num 0) = NaN.
Proof.
  simpl. rewrite Reqb_true by reflexivity.
  unfold sgn. now rewrite !Rltb_false by lra.
Qed.

(** ** Arrays of a table *)

Lemma index_map {A B : Type} (f : A -> B) (g : A -> bool) (l : list A) :
  np.index (map f l) (map g l) = map f (filter g l).
Proof.
  induction l as [|a l IH]; simpl; [reflexivity|].
  destruct (g a); simpl; now rewrite IH.
Qed.

Lemma mul_map {A : Type} (f g : A -> num) (l : list A) :
  np.mul (map f l) (map g l) = map (fun a => fmul (f a) (g a)) l.
Proof. induction l as [|a l IH]; simpl; [reflexivity | now rewrite IH]. Qed.

Lemma valid_parallaxes_kept (t : ResultSet) :
  Script.valid_parallaxes t = map kept t.
Proof.
  unfold Script.valid_parallaxes, Script.parallaxes, col_parallax, np.gt.
  rewrite map_map. apply map_ext. intros r. unfold kept.
  destruct (parallax r); reflexivity.
Qed.

Lemma kept_parallax (r : CatalogRow) :
  kept r = true -> exists p, parallax r = Some p /\ 0 < p.
Proof.
  unfold kept. destruct (parallax r) as [p|]; [|discriminate].
  intros H. exists p. split; [reflexivity | now apply Rltb_lt].
Qed.

Lemma kept_distance_pos (r : CatalogRow) :
  kept r = true -> 0 < distance_pc (project_row r).
Proof.
  intros H. destruct (kept_parallax r H) as (p & Hp & Hpos).
  simpl. unfold parallax_of. rewrite Hp.
  unfold Rdiv. rewrite Rmult_1_l. now apply Rinv_0_lt_compat.
Qed.

(** The columnar code computes, for the kept rows in order, what the
    row-wise engine of the specification computes. *)
Lemma distances_project (t : ResultSet) :
  Script.distances t = map (fun q => Num (distance_pc q)) (project t).
Proof.
  unfold Script.distances, Script.parallaxes, col_parallax, np.rdiv.
  rewrite valid_parallaxes_kept, index_map.
  unfold project, FilteredSample. rewrite !map_map.
  apply map_ext_in. intros r Hr. apply filter_In in Hr as [_ Hk].
  destruct (kept_parallax r Hk) as (p & Hp & Hpos).
  simpl. unfold parallax_of. rewrite Hp. simpl.
  rewrite Reqb_false by lra. reflexivity.
Qed.

Lemma x_project (t : ResultSet) :
  Script.x t = map (fun q => Num (px q)) (project t).
Proof.
  unfold Script.x, Script.dec_rad, Script.ra_rad.
  rewrite distances_project.
  unfold col_dec, col_ra, np.radians, np.cos.
  rewrite valid_parallaxes_kept, !index_map.
  unfold project, FilteredSample. rewrite !map_map, !mul_map.
  reflexivity.
Qed.

Lemma y_project (t : ResultSet) :
  Script.y t = map (fun q => Num (py q)) (project t).
Proof.
  unfold Script.y, Script.dec_rad, Script.ra_rad.
  rewrite distances_project.
  unfold col_dec, col_ra, np.radians, np.cos, np.sin.
  rewrite valid_parallaxes_kept, !index_map.
  unfold project, FilteredSample. rewrite !map_map, !mul_map.
  reflexivity.
Qed.

(** ** The projection engine *)



(** C1.  For the kept rows of any result table, in order, the script computes
    distance_pc = 1/parallax, turns ra and dec from degrees into radians and
    emits x = distance_pc * cos(dec) * cos(ra) and
    y = distance_pc * cos(dec) * sin(ra).  The row (ra=0, dec=0, parallax=1)
    gives distance_pc = 1, x = 1, y = 0, and (ra=90, dec=0, parallax=1) gives
    x = 0 (exactly, in exact arithmetic) and y = 1. *)
Theorem C1_projection_formula :
  (forall t : ResultSet,
      Script.distances t
      = map (fun r => Num (1 / parallax_of r)) (FilteredSample t)
      /\ Script.x t
         = map (fun r => Num (1 / parallax_of r
                              * cos (dec r * (PI / 180))
                              * cos (ra r * (PI / 180))))
             (FilteredSample t)
      /\ Script.y t
         = map (fun r => Num (1 / parallax_of r
                              * cos (dec r * (PI / 180))
                              * sin (ra r * (PI / 180))))
             (FilteredSample t))
  /\ (Script.distances [mkRow 1 0 0 (Some 1)] = [Num 1]
      /\ Script.x [mkRow 1 0 0 (Some 1)] = [Num 1]
      /\ Script.y [mkRow 1 0 0 (Some 1)] = [Num 0])
  /\ (Script.distances [mkRow 1 90 0 (Some 1)] = [Num 1]
      /\ Script.x [mkRow 1 90 0 (Some 1)] = [Num 0]
      /\ Script.y [mkRow 1 90 0 (Some 1)] = [Num 1]).
Proof.
  split; [|split].
  - intros t. rewrite distances_project, x_project, y_project.
    unfold project. rewrite !map_map. repeat split; reflexivity.
  - rewrite distances_project, x_project, y_project.
    unfold project, FilteredSample. simpl. unfold kept. simpl.
    rewrite Rltb_true by lra. simpl. unfold parallax_of, deg2rad. simpl.
    replace (0 * (PI / 180)) with 0 by lra.
    rewrite cos_0, sin_0.
    repeat split; do 2 f_equal; lra.
  - rewrite distances_project, x_project, y_project.
    unfold project, FilteredSample. simpl. unfold kept. simpl.
    rewrite Rltb_true by lra. simpl. unfold parallax_of, deg2rad. simpl.
    replace (0 * (PI / 180)) with 0 by lra.
    replace (90 * (PI / 180)) with (PI / 2) by lra.
    rewrite cos_0, cos_PI2, sin_PI2.
    repeat split; do 2 f_equal; lra.
Qed.




(** ** The query *)

(** Two adjacent values of max_distance_pc, 1.9999999999999996 and
    1.9999999999999998, give the same threshold 0.5000000000000001: the
    threshold does not strictly decrease. *)
Lemma C3_counterexample_same_threshold :
  PrimFloat.ltb 0%float Binary64.below_two = true
  /\ PrimFloat.ltb Binary64.below_two Binary64.just_below_two = true
  /\ Binary64.min_parallax Binary64.below_two
     = Binary64.min_parallax Binary64.just_below_two.
Proof. repeat split; vm_compute; reflexivity. Qed.

(** C3 (as amended).  When max_distance_pc is a positive number m, the query
    the script builds selects [parallax >= 1/m AND parallax IS NOT NULL], and
    for a larger max_distance_pc the threshold is not larger. *)
Theorem C3_query_threshold
  (q1 q2 : Quantity) (m1 m2 : R)
  (H1 : Script.max_distance_pc q1 = Num m1)
  (H2 : Script.max_distance_pc q2 = Num m2)
  (Hpos : 0 < m1) (Hle : m1 <= m2) :
  min_parallax (Script.query q1) = Some (Num (1 / m1))
  /\ min_parallax (Script.query q2) = Some (Num (1 / m2))
  /\ 1 / m2 <= 1 / m1
  /\ (exists pre post : string,
         Script.query q1
         = [ Lit (pre ++ "WHERE parallax >= ");
             Fmt (Num (1 / m1));
             Lit (" AND parallax IS NOT NULL" ++ post) ]).
Proof.
  unfold Script.query. rewrite H1, H2.
  rewrite !fdiv_Num by lra.
  repeat split.
  - unfold Rdiv. rewrite !Rmult_1_l.
    apply Rinv_le_contravar; [exact Hpos | exact Hle].
  - exists (LF ++ TAB ++ "SELECT source_id, ra, dec, parallax"
              ++ LF ++ TAB ++ "FROM gaiadr2.gaia_source" ++ LF ++ TAB)%string,
      (LF ++ TAB)%string.
    reflexivity.
Qed.

Lemma C3_witness :
  Script.max_distance_pc (mkQuantity (Num 1) pc) = Num 1
  /\ Script.max_distance_pc (mkQuantity (Num 2) pc) = Num 2
  /\ 0 < 1 /\ 1 <= 2
  /\ min_parallax (Script.query (mkQuantity (Num 1) pc)) = Some (Num (1 / 1)).
Proof.
  assert (Ha : Script.max_distance_pc (mkQuantity (Num 1) pc) = Num 1)
    by reflexivity.
  assert (Hb : Script.max_distance_pc (mkQuantity (Num 2) pc) = Num 2)
    by reflexivity.
  assert (Hc : 0 < 1) by lra.
  assert (Hd : 1 <= 2) by lra.
  repeat split; try assumption.
  exact (proj1 (C3_query_threshold _ _ 1 2 Ha Hb Hc Hd)).
Defined.

(** ** Sizes and colours *)

Lemma sizes_finite (ds : list R) (dmin dmax : R) :
  dmin < dmax ->
  np.add_s
    (np.mul_s
       (np.rsub (Num 1)
          (np.div_s (np.sub_s (map Num ds) (Num dmin))
             (fsub (Num dmax) (Num dmin))))
       (Num (100 - 10)))
    (Num 10)
  = map (fun d => Num (size_of (normalized dmin dmax d))) ds.
Proof.
  intros Hlt.
  unfold np.add_s, np.mul_s, np.rsub, np.div_s, np.sub_s.
  rewrite !map_map. apply map_ext. intros d.
  unfold fsub. simpl. rewrite Reqb_false by lra. simpl.
  unfold size_of, normalized, max_size, min_size, Rminus. reflexivity.
Qed.

Lemma colors_finite (ds : list R) (dmin dmax : R) :
  dmin < dmax ->
  map coolwarm
    (np.rsub (Num 1)
       (np.div_s (np.sub_s (map Num ds) (Num dmin))
          (fsub (Num dmax) (Num dmin))))
  = map (fun d => coolwarm (Num (color_of (normalized dmin dmax d)))) ds.
Proof.
  intros Hlt.
  unfold np.rsub, np.div_s, np.sub_s.
  rewrite !map_map. apply map_ext. intros d.
  unfold fsub. simpl. rewrite Reqb_false by lra. simpl.
  unfold color_of, normalized, Rminus. reflexivity.
Qed.

Lemma normalized_mono (dmin dmax d1 d2 : R) :
  dmin < dmax -> d1 <= d2 ->
  normalized dmin dmax d1 <= normalized dmin dmax d2.
Proof.
  intros Hlt Hle. unfold normalized, Rdiv.
  apply Rmult_le_compat_r; [|lra].
  left. apply Rinv_0_lt_compat. lra.
Qed.


Lemma fold_minimum_finite (ds : list R) :
  forall d : R,
    exists m : R,
      fold_left np.minimum (map Num ds) (Num d) = Num m
      /\ m <= d /\ (forall e, In e ds -> m <= e) /\ (m = d \/ In m ds).
Proof.
  induction ds as [|e ds IH]; intros d; simpl.
  - exists d. repeat split; [lra | contradiction | now left].
  - unfold np.minimum at 2. simpl. unfold Rltb.
    destruct (Rlt_dec e d) as [Hlt | Hge].
    + destruct (IH e) as (m & Hf & Hle & Hall & Hin).
      exists m. split; [exact Hf|]. split; [lra|]. split.
      * intros e' [<- | He']; [exact Hle | now apply Hall].
      * right. destruct Hin as [-> | Hin]; [now left | now right].
    + destruct (IH d) as (m & Hf & Hle & Hall & Hin).
      exists m. split; [exact Hf|]. split; [exact Hle|]. split.
      * intros e' [<- | He']; [lra | now apply Hall].
      * destruct Hin as [-> | Hin]; [now left | right; now right].
Qed.

Lemma fold_maximum_finite (ds : list R) :
  forall d : R,
    exists m : R,
      fold_left np.maximum (map Num ds) (Num d) = Num m
      /\ d <= m /\ (forall e, In e ds -> e <= m) /\ (m = d \/ In m ds).
Proof.
  induction ds as [|e ds IH]; intros d; simpl.
  - exists d. repeat split; [lra | contradiction | now left].
  - unfold np.maximum at 2. simpl. unfold Rltb.
    destruct (Rlt_dec d e) as [Hlt | Hge].
    + destruct (IH e) as (m & Hf & Hle & Hall & Hin).
      exists m. split; [exact Hf|]. split; [lra|]. split.
      * intros e' [<- | He']; [exact Hle | now apply Hall].
      * right. destruct Hin as [-> | Hin]; [now left | now right].
    + destruct (IH d) as (m & Hf & Hle & Hall & Hin).
      exists m. split; [exact Hf|]. split; [exact Hle|]. split.
      * intros e' [<- | He']; [lra | now apply Hall].
      * destruct Hin as [-> | Hin]; [now left | right; now right].
Qed.

(** A sample of finite distances that is not empty has a finite minimum and
    maximum, members of the sample that bound it: so has every table with a
    kept row. *)
Lemma sample_min_max (ds : list R) :
  ds <> [] ->
  exists dmin dmax : R,
    np.min (map Num ds) = Some (Num dmin)
    /\ np.max (map Num ds) = Some (Num dmax)
    /\ In dmin ds /\ In dmax ds
    /\ (forall d, In d ds -> dmin <= d <= dmax).
Proof.
  destruct ds as [|d ds]; [congruence|]. intros _.
  destruct (fold_minimum_finite ds d) as (lo & Hlo & Hlod & Hloall & Hloin).
  destruct (fold_maximum_finite ds d) as (hi & Hhi & Hhid & Hhiall & Hhiin).
  exists lo, hi. simpl. rewrite Hlo, Hhi.
  split; [reflexivity|]. split; [reflexivity|].
  split; [destruct Hloin as [-> | H]; [now left | now right]|].
  split; [destruct Hhiin as [-> | H]; [now left | now right]|].
  intros e [<- | He]; split; auto.
Qed.



(** C6.  On a sample of exactly one point the script divides 0 by 0: the
    size it computes is NaN, not max_size, and the colour is the colour map
    at NaN, not at 1.  So it is for the table of the single row
    (ra=0, dec=0, parallax=1). *)
Theorem C6_single_point_is_nan :
  (forall d : R,
      Script.star_sizes [Num d] = inr [NaN]
      /\ Script.star_colors [Num d] = inr [coolwarm NaN])
  /\ Script.star_sizes (Script.distances [mkRow 1 0 0 (Some 1)]) = inr [NaN]
  /\ Script.star_sizes (Script.distances [mkRow 1 0 0 (Some 1)])
     <> inr [Num max_size].
Proof.
  assert (H : forall d : R,
             Script.star_sizes [Num d] = inr [NaN]
             /\ Script.star_colors [Num d] = inr [coolwarm NaN]).
  { intros d. unfold Script.star_sizes, Script.star_colors. simpl.
    unfold fsub. simpl.
    rewrite Reqb_true by lra.
    unfold sgn. rewrite !Rltb_false by lra. simpl. split; reflexivity. }
  assert (Hd : Script.distances [mkRow 1 0 0 (Some 1)] = [Num (1 / 1)]).
  { rewrite distances_project. unfold project, FilteredSample. simpl.
    unfold kept. simpl. now rewrite Rltb_true by lra. }
  split; [exact H|]. rewrite Hd.
  destruct (H (1 / 1)) as [-> _]. split; [reflexivity | discriminate].
Qed.

(** ** The runs of the two programs *)

Lemma nearby_stars_run (q : Quantity) (gaia : Catalog) :
  Script.nearby_stars q gaia = script_run q (gaia (Script.query q)).
Proof.
  unfold Script.nearby_stars, script_run, bind, get_results, do_, lift.
  cbn [calls outcome].
  destruct (List.length (gaia (Script.query q)) =? 0)%nat; [reflexivity|].
  cbn [calls outcome app].
  destruct (Script.star_sizes _) as [e|s]; [reflexivity|].
  cbn [calls outcome app].
  destruct (Script.star_colors _) as [e|c]; reflexivity.
Qed.

Lemma plot_nearby_stars_run (text : string) (v : num) (gaia : Catalog) :
  float text = Some v ->
  Gui.plot_nearby_stars text gaia
  = gui_run v (gaia (Gui.query (value (to_pc (mkQuantity v lyr))))).
Proof.
  intros Hv.
  unfold Gui.plot_nearby_stars, gui_run, bind, get_results, do_, lift.
  rewrite Hv. cbn [calls outcome].
  destruct (List.length (gaia _) =? 0)%nat; [reflexivity|].
  cbn [calls outcome app].
  destruct (Gui.star_sizes _) as [e|s]; [reflexivity|].
  cbn [calls outcome app].
  destruct (Gui.star_colors _) as [e|c]; reflexivity.
Qed.

Lemma main_run (stdin : string) (v : num) (gaia : Catalog) :
  float stdin = Some v ->
  Script.main stdin gaia
  = script_run (mkQuantity v lyr) (gaia (Script.query (mkQuantity v lyr))).
Proof.
  intros Hv. unfold Script.main. rewrite Hv. apply nearby_stars_run.
Qed.

(** ** Reading the user's text *)

Lemma float_abc : float "abc" = None.
Proof. reflexivity. Qed.

Lemma float_minus_5 : float "-5" = Some (Num (-5)).
Proof.
  unfold float.
  replace (pyfloat.parse "-5") with (Some (pyfloat.LNum true 5 0))
    by (vm_compute; reflexivity).
  simpl. do 2 f_equal. lra.
Qed.

Lemma float_10 : float "10" = Some (Num 10).
Proof.
  unfold float.
  replace (pyfloat.parse "10") with (Some (pyfloat.LNum false 10 0))
    by (vm_compute; reflexivity).
  simpl. do 2 f_equal. lra.
Qed.

Lemma lyr_in_pc_bounds : 0 < lyr_in_pc < 2 / 5.
Proof.
  pose proof PI_RGT_0 as Hpi. pose proof PI_4 as Hpi4.
  unfold lyr_in_pc.
  replace (299792458 * 31557600 / (149597870700 * 648000 / PI))
    with (PI * (299792458 * 31557600 / (149597870700 * 648000)))
    by (field; lra).
  split.
  - apply Rmult_lt_0_compat; lra.
  - apply Rle_lt_trans
      with (4 * (299792458 * 31557600 / (149597870700 * 648000))).
    + apply Rmult_le_compat_r; lra.
    + lra.
Qed.

(** C7 (as amended).  ASCII text that [float] cannot read, such as "abc",
    is rejected before any query is built: both programs raise the
    ValueError and make no call at all. *)
Theorem C7_unreadable_text_rejected
  (text : string) (gaia : Catalog)
  (Hascii : forallb pyfloat.is_ascii (list_ascii_of_string text) = true)
  (H : float text = None) :
  Script.main text gaia = mkRun [] (inl not_a_float)
  /\ Gui.plot_nearby_stars text gaia = mkRun [] (inl not_a_float)
  /\ existsb is_query (calls (Script.main text gaia)) = false
  /\ existsb is_query (calls (Gui.plot_nearby_stars text gaia)) = false.
Proof.
  unfold Script.main, Gui.plot_nearby_stars. rewrite H.
  repeat split; reflexivity.
Qed.

Lemma C7_witness :
  forallb pyfloat.is_ascii (list_ascii_of_string "abc") = true
  /\ float "abc" = None
  /\ Script.main "abc" (fun _ => []) = mkRun [] (inl not_a_float).
Proof.
  split; [reflexivity|]. split; [exact float_abc|].
  exact (proj1 (C7_unreadable_text_rejected "abc" (fun _ => []) eq_refl
                  float_abc)).
Defined.

(** The text "-5" is read as the number -5, which is not positive, and both
    programs build a query from it and send it: the threshold is
    1 / (-5 * lyr_in_pc), a negative number. *)
Lemma C7_counterexample_negative_input :
  float "-5" = Some (Num (-5))
  /\ calls (Script.main "-5" (fun _ => []))
     = [ launch_job (Script.query (mkQuantity (Num (-5)) lyr));
         print "No nearby stars found within the specified distance." ]
  /\ min_parallax (Script.query (mkQuantity (Num (-5)) lyr))
     = Some (Num (1 / (-5 * lyr_in_pc)))
  /\ existsb is_query (calls (Script.main "-5" (fun _ => []))) = true
  /\ existsb is_query (calls (Gui.plot_nearby_stars "-5" (fun _ => []))) = true.
Proof.
  pose proof lyr_in_pc_bounds as Hk.
  rewrite (main_run "-5" _ _ float_minus_5).
  rewrite (plot_nearby_stars_run "-5" _ _ float_minus_5).
  repeat split; try reflexivity; [exact float_minus_5|].
  unfold Script.query, Script.max_distance_pc, to_pc. simpl.
  rewrite Reqb_false by lra. reflexivity.
Qed.

(** ** The empty sample *)

(** An empty result table is signalled on the console; nothing is drawn and
    nothing is raised. *)
Lemma empty_table_signalled (q : Quantity) (gaia : Catalog) :
  gaia (Script.query q) = [] ->
  Script.nearby_stars q gaia
  = mkRun [ launch_job (Script.query q);
            print "No nearby stars found within the specified distance." ]
      (inr tt).
Proof.
  intros H. rewrite nearby_stars_run, H. reflexivity.
Qed.

Lemma where_Num (threshold : R) (r : CatalogRow) :
  where_ (Num threshold) r = true <->
  exists p, parallax r = Some p /\ threshold <= p.
Proof.
  unfold where_. destruct (parallax r) as [p|].
  - unfold fgeb, fltb. split.
    + intros H. exists p. split; [reflexivity|].
      apply orb_true_iff in H as [H | H].
      * apply Rltb_lt in H. lra.
      * unfold Reqb in H. destruct (Req_dec_T p threshold); [lra | discriminate].
    + intros (p' & [= <-] & Hle).
      destruct (Rlt_dec threshold p) as [Hlt | Hge].
      * now rewrite Rltb_true.
      * rewrite Reqb_true by lra. apply orb_true_r.
  - split; [discriminate | intros (p & H & _); discriminate].
Qed.

Lemma threshold_minus_5 :
  fdiv (Num 1) (Script.max_distance_pc (mkQuantity (Num (-5)) lyr))
  = Num (1 / (-5 * lyr_in_pc))
  /\ 1 / (-5 * lyr_in_pc) < -1 / 2.
Proof.
  pose proof lyr_in_pc_bounds as Hk.
  split.
  - unfold Script.max_distance_pc, to_pc. simpl.
    now rewrite Reqb_false by lra.
  - replace (1 / (-5 * lyr_in_pc)) with (- / (5 * lyr_in_pc)) by (field; lra).
    replace (-1 / 2) with (- / 2) by lra.
    apply Ropp_lt_contravar. apply Rinv_lt_contravar; [|lra].
    apply Rmult_lt_0_compat; lra.
Qed.

(** C4.  The script guards the empty result table only.  When the user
    enters "-5" and the catalog holds one star of parallax -1/2, that row
    satisfies the query sent, the table is not empty, no row is kept, and the
    run ends in the ValueError of [distances.min()] after the figure and the
    Sun have been drawn: no EmptySample signal. *)
Theorem C4_all_rows_dropped_raises :
  catalog_of [mkRow 1 0 0 (Some (-1 / 2))]
    (Script.query (mkQuantity (Num (-5)) lyr))
  = [mkRow 1 0 0 (Some (-1 / 2))]
  /\ FilteredSample [mkRow 1 0 0 (Some (-1 / 2))] = []
  /\ Script.main "-5" (catalog_of [mkRow 1 0 0 (Some (-1 / 2))])
     = mkRun [ launch_job (Script.query (mkQuantity (Num (-5)) lyr));
               subplots 10 10;
               sun_glow (Script.sun_size * 0.7);
               scatter_sun Script.sun_size ]
         (inl empty_reduction)
  /\ existsb is_rendering
       (calls (Script.main "-5" (catalog_of [mkRow 1 0 0 (Some (-1 / 2))])))
     = true.
Proof.
  destruct threshold_minus_5 as [Hthr Hlt].
  assert (Hcat : catalog_of [mkRow 1 0 0 (Some (-1 / 2))]
                   (Script.query (mkQuantity (Num (-5)) lyr))
                 = [mkRow 1 0 0 (Some (-1 / 2))]).
  { unfold catalog_of, Script.query, min_parallax. rewrite Hthr.
    unfold filter.
    replace (where_ (Num (1 / (-5 * lyr_in_pc))) (mkRow 1 0 0 (Some (-1 / 2))))
      with true; [reflexivity|].
    symmetry. apply where_Num. exists (-1 / 2). split; [reflexivity | lra]. }
  assert (Hkept : FilteredSample [mkRow 1 0 0 (Some (-1 / 2))] = []).
  { unfold FilteredSample, filter, kept. simpl.
    now rewrite Rltb_false by lra. }
  assert (Hdist : Script.distances [mkRow 1 0 0 (Some (-1 / 2))] = []).
  { rewrite distances_project. unfold project. now rewrite Hkept. }
  assert (Hrun : Script.main "-5" (catalog_of [mkRow 1 0 0 (Some (-1 / 2))])
                 = mkRun [ launch_job (Script.query (mkQuantity (Num (-5)) lyr));
                           subplots 10 10;
                           sun_glow (Script.sun_size * 0.7);
                           scatter_sun Script.sun_size ]
                     (inl empty_reduction)).
  { rewrite (main_run "-5" _ _ float_minus_5), Hcat.
    unfold script_run. rewrite Hdist. reflexivity. }
  repeat split; try assumption.
  rewrite Hrun. reflexivity.
Qed.

(** ** Geometry of the projection *)

Lemma radius_sq (d delta alpha : R) :
  (d * cos delta * cos alpha) * (d * cos delta * cos alpha)
  + (d * cos delta * sin alpha) * (d * cos delta * sin alpha)
  = d * d * (cos delta * cos delta).
Proof.
  pose proof (sin2_cos2 alpha) as H. unfold Rsqr in H.
  replace ((d * cos delta * cos alpha) * (d * cos delta * cos alpha)
           + (d * cos delta * sin alpha) * (d * cos delta * sin alpha))
    with (d * d * (cos delta * cos delta)
          * (sin alpha * sin alpha + cos alpha * cos alpha)) by ring.
  rewrite H. ring.
Qed.

Lemma cos_sq_le_1 (delta : R) : cos delta * cos delta <= 1.
Proof.
  pose proof (sin2_cos2 delta) as H. unfold Rsqr in H.
  pose proof (Rle_0_sqr (sin delta)) as Hs. unfold Rsqr in Hs. lra.
Qed.

Lemma cos_sq_1_deg (a : R) :
  -90 <= a <= 90 ->
  (cos (deg2rad a) * cos (deg2rad a) = 1 <-> a = 0).
Proof.
  intros Ha. pose proof PI_RGT_0 as Hpi. unfold deg2rad. split.
  - intros Hc.
    pose proof (sin2_cos2 (a * (PI / 180))) as H. unfold Rsqr in H.
    assert (Hs : sin (a * (PI / 180)) = 0) by nra.
    destruct (Rtotal_order a 0) as [Hneg | [Hz | Hp]]; [|exact Hz|].
    + assert (Hlt : sin (a * (PI / 180)) < 0).
      { apply sin_lt_0_var; nra. }
      lra.
    + assert (Hgt : 0 < sin (a * (PI / 180))).
      { apply sin_gt_0; nra. }
      lra.
  - intros ->. rewrite Rmult_0_l, cos_0. lra.
Qed.

Lemma point_of_kept (t : ResultSet) (i : nat) (r : CatalogRow) :
  nth_error (FilteredSample t) i = Some r ->
  kept r = true
  /\ nth_error (Script.distances t) i = Some (Num (distance_pc (project_row r)))
  /\ nth_error (Script.x t) i = Some (Num (px (project_row r)))
  /\ nth_error (Script.y t) i = Some (Num (py (project_row r))).
Proof.
  intros Hi.
  rewrite distances_project, x_project, y_project. unfold project.
  rewrite !map_map.
  repeat split.
  - apply nth_error_In in Hi. unfold FilteredSample in Hi.
    now apply filter_In in Hi.
  - now apply (map_nth_error (fun r => Num (distance_pc (project_row r)))).
  - now apply (map_nth_error (fun r => Num (px (project_row r)))).
  - now apply (map_nth_error (fun r => Num (py (project_row r)))).
Qed.

(** In binary64 the row (ra=8, dec=0, parallax=1) gives distance 1,
    x = 0.9902680687415704 and y = 0.13917310096006544, and x*x + y*y is
    1.0000000000000002, above the squared distance; and the row
    (ra=0, dec=1e-9, parallax=1), whose dec is not 0, gives x = 1 and y = 0,
    so that x*x + y*y equals the squared distance. *)
Lemma C8_counterexample_rounding :
  (Binary64.distances [1%float] = [1%float]
   /\ Binary64.x [8%float] [0%float] [1%float]
      = Some [0x1.fb046a930947ap-1%float]
   /\ Binary64.y [8%float] [0%float] [1%float]
      = Some [0x1.1d06c968d9e19p-3%float]
   /\ PrimFloat.ltb (Binary64.square 1%float)
        (Binary64.norm2 0x1.fb046a930947ap-1%float
           0x1.1d06c968d9e19p-3%float) = true)
  /\ (PrimFloat.eqb Binary64.nano_degree 0%float = false
      /\ Binary64.x [0%float] [Binary64.nano_degree] [1%float]
         = Some [1%float]
      /\ Binary64.y [0%float] [Binary64.nano_degree] [1%float]
         = Some [0%float]
      /\ Binary64.norm2 1%float 0%float = Binary64.square 1%float).
Proof. repeat split; vm_compute; reflexivity. Qed.

(** C8 (as amended).  In exact arithmetic, the point the script emits for
    the i-th kept row has x^2 + y^2 <= distance_pc^2, and when the row's dec
    lies in [-90, 90] degrees the two are equal exactly when dec = 0. *)
Theorem C8_inside_the_distance_circle
  (t : ResultSet) (i : nat) (r : CatalogRow)
  (Hi : nth_error (FilteredSample t) i = Some r) :
  exists d x y : R,
    nth_error (Script.distances t) i = Some (Num d)
    /\ nth_error (Script.x t) i = Some (Num x)
    /\ nth_error (Script.y t) i = Some (Num y)
    /\ x * x + y * y <= d * d
    /\ (-90 <= dec r <= 90 -> (x * x + y * y = d * d <-> dec r = 0)).
Proof.
  destruct (point_of_kept t i r Hi) as (Hk & Hd & Hx & Hy).
  pose proof (kept_distance_pos r Hk) as Hpos.
  exists (distance_pc (project_row r)), (px (project_row r)),
    (py (project_row r)).
  repeat split; try assumption;
    cbn [project_row distance_pc px py] in *;
    set (d := 1 / parallax_of r) in *;
    rewrite radius_sq;
    pose proof (cos_sq_le_1 (deg2rad (dec r))) as Hc.
  - assert (0 <= d * d) by nra. nra.
  - intros Heq. apply (proj1 (cos_sq_1_deg (dec r) H)).
    apply (Rmult_eq_reg_l (d * d)); [lra | nra].
  - intros Hz. rewrite (proj2 (cos_sq_1_deg (dec r) H) Hz). ring.
Qed.

Lemma C8_witness :
  nth_error (FilteredSample [mkRow 1 0 0 (Some 1)]) 0
  = Some (mkRow 1 0 0 (Some 1))
  /\ exists d x y : R,
      nth_error (Script.distances [mkRow 1 0 0 (Some 1)]) 0 = Some (Num d)
      /\ nth_error (Script.x [mkRow 1 0 0 (Some 1)]) 0 = Some (Num x)
      /\ nth_error (Script.y [mkRow 1 0 0 (Some 1)]) 0 = Some (Num y)
      /\ x * x + y * y <= d * d.
Proof.
  assert (H : nth_error (FilteredSample [mkRow 1 0 0 (Some 1)]) 0
              = Some (mkRow 1 0 0 (Some 1))).
  { unfold FilteredSample, filter, kept. simpl.
    now rewrite Rltb_true by lra. }
  split; [exact H|].
  destruct (C8_inside_the_distance_circle _ 0%nat _ H)
    as (d & x & y & Hd & Hx & Hy & Hle & _).
  exists d, x, y. repeat split; assumption.
Defined.

(** ** The two entry points *)

Lemma min_parallax_untab (q : fstring) :
  min_parallax (map untab_frag q) = min_parallax q.
Proof.
  destruct q as [|[s1|v1] [|[s2|v2] [|[s3|v3] [|f4 q]]]]; reflexivity.
Qed.

Lemma catalog_of_ignores_tabs (db : ResultSet) (q1 q2 : fstring) :
  map untab_frag q1 = map untab_frag q2 ->
  catalog_of db q1 = catalog_of db q2.
Proof.
  intros H. unfold catalog_of.
  now rewrite <- (min_parallax_untab q1), <- (min_parallax_untab q2), H.
Qed.

Lemma queries_up_to_tabs (q : Quantity) :
  map untab_frag (Script.query q)
  = map untab_frag (Gui.query (Script.max_distance_pc q)).
Proof.
  unfold Script.query, Gui.query. cbn [map untab_frag].
  match goal with
  | |- [Lit ?a; _; Lit ?b] = [Lit ?a'; _; Lit ?b'] =>
      assert (Ha : a = a') by (vm_compute; reflexivity);
      assert (Hb : b = b') by (vm_compute; reflexivity)
  end.
  rewrite Ha, Hb. reflexivity.
Qed.

(** The two query texts differ: the front end's literal is indented by one
    more tab on every line. *)
Lemma C9_counterexample_query_text :
  Script.query (mkQuantity (Num 10) lyr)
  <> Gui.query (value (to_pc (mkQuantity (Num 10) lyr)))
  /\ hd_error (calls (Script.main "10" (fun _ => [])))
     <> hd_error (calls (Gui.plot_nearby_stars "10" (fun _ => []))).
Proof.
  assert (H : Script.query (mkQuantity (Num 10) lyr)
              <> Gui.query (value (to_pc (mkQuantity (Num 10) lyr)))).
  { unfold Script.query, Gui.query. intros H.
    injection H as H1 _ _. vm_compute in H1. discriminate H1. }
  split; [exact H|].
  rewrite (main_run "10" _ _ float_10).
  rewrite (plot_nearby_stars_run "10" _ _ float_10).
  cbn [script_run gui_run List.length Nat.eqb calls hd_error].
  intros Heq. apply H. now injection Heq.
Qed.

(** C9 (as amended).  The script and the front end build the same query up
    to tab characters, with the same threshold, and compute the same
    distances, x, y, sizes and colours from a result table; with a catalog
    that does not look at the tabs, the two runs ask for the same console
    lines and the same drawing. *)
Theorem C9_same_pipeline_up_to_tabs
  (text : string) (gaia : Catalog)
  (Hgaia : forall q1 q2 : fstring,
      map untab_frag q1 = map untab_frag q2 -> gaia q1 = gaia q2) :
  (forall q : Quantity,
      map untab_frag (Script.query q)
      = map untab_frag (Gui.query (Script.max_distance_pc q))
      /\ min_parallax (Script.query q)
         = min_parallax (Gui.query (Script.max_distance_pc q)))
  /\ (forall t : ResultSet,
         Script.distances t = Gui.distances t
         /\ Script.x t = Gui.x t
         /\ Script.y t = Gui.y t)
  /\ (forall ds : list num,
         Script.star_sizes ds = Gui.star_sizes ds
         /\ Script.star_colors ds = Gui.star_colors ds)
  /\ shown (calls (Script.main text gaia))
     = shown (calls (Gui.plot_nearby_stars text gaia)).
Proof.
  split; [|split; [|split]].
  - intros q. split; [apply queries_up_to_tabs | reflexivity].
  - intros t. repeat split; reflexivity.
  - intros ds. split; reflexivity.
  - destruct (float text) as [v|] eqn:Hv.
    + rewrite (main_run text v gaia Hv).
      rewrite (plot_nearby_stars_run text v gaia Hv).
      rewrite (Hgaia _ _ (queries_up_to_tabs (mkQuantity v lyr))).
      unfold Script.max_distance_pc.
      set (t := gaia (Gui.query (value (to_pc (mkQuantity v lyr))))).
      unfold script_run, gui_run.
      change (Gui.star_sizes (Gui.distances t))
        with (Script.star_sizes (Script.distances t)).
      change (Gui.star_colors (Gui.distances t))
        with (Script.star_colors (Script.distances t)).
      destruct (List.length t =? 0)%nat; [reflexivity|].
      destruct (Script.star_sizes (Script.distances t)) as [e|s];
        [reflexivity|].
      destruct (Script.star_colors (Script.distances t)) as [e|c];
        reflexivity.
    + unfold Script.main, Gui.plot_nearby_stars. rewrite Hv.
      reflexivity.
Qed.

Lemma C9_witness :
  (forall q1 q2 : fstring,
      map untab_frag q1 = map untab_frag q2 ->
      catalog_of [mkRow 1 0 0 (Some 1); mkRow 2 30 60 (Some 2)] q1
      = catalog_of [mkRow 1 0 0 (Some 1); mkRow 2 30 60 (Some 2)] q2)
  /\ shown (calls (Script.main "10"
                     (catalog_of [mkRow 1 0 0 (Some 1);
                                  mkRow 2 30 60 (Some 2)])))
     = shown (calls (Gui.plot_nearby_stars "10"
                       (catalog_of [mkRow 1 0 0 (Some 1);
                                    mkRow 2 30 60 (Some 2)]))).
Proof.
  split;
    [exact (catalog_of_ignores_tabs
              [mkRow 1 0 0 (Some 1); mkRow 2 30 60 (Some 2)])|].
  exact (proj2 (proj2 (proj2
           (C9_same_pipeline_up_to_tabs "10"
              (catalog_of [mkRow 1 0 0 (Some 1); mkRow 2 30 60 (Some 2)])
              (catalog_of_ignores_tabs
                 [mkRow 1 0 0 (Some 1); mkRow 2 30 60 (Some 2)]))))).
Defined.

(** ** Inside the plotted square *)

Lemma filter_all {A : Type} (g : A -> bool) (l : list A) :
  (forall a, In a l -> g a = true) -> filter g l = l.
Proof.
  induction l as [|a l IH]; intros H; simpl; [reflexivity|].
  rewrite (H a (or_introl eq_refl)). f_equal.
  apply IH. intros b Hb. apply H. now right.
Qed.

Lemma selected_is_kept (m : R) (r : CatalogRow) :
  0 < m -> where_ (Num (1 / m)) r = true ->
  kept r = true /\ 1 / parallax_of r <= m.
Proof.
  intros Hm Hw. apply where_Num in Hw as (p & Hp & Hle).
  assert (Hinv : 0 < 1 / m).
  { unfold Rdiv. rewrite Rmult_1_l. now apply Rinv_0_lt_compat. }
  assert (Hpos : 0 < p) by lra.
  unfold kept, parallax_of. rewrite Hp. split; [now apply Rltb_true|].
  assert (H1 : 1 <= m * p).
  { replace 1 with (m * (1 / m)) by (field; lra).
    apply Rmult_le_compat_l; lra. }
  replace m with (m * p * / p) by (field; lra).
  unfold Rdiv. apply Rmult_le_compat_r; [|exact H1].
  left. now apply Rinv_0_lt_compat.
Qed.

Lemma sizes_of_nonempty (ds : list num) :
  ds <> [] ->
  exists s c, Script.star_sizes ds = inr s /\ Script.star_colors ds = inr c.
Proof.
  destruct ds as [|d ds]; [congruence|]. intros _.
  unfold Script.star_sizes, Script.star_colors. simpl.
  eexists. eexists. split; reflexivity.
Qed.

(** In binary64, for max_distance_pc = 30.66013937855506 (100 light-years)
    the threshold is 0.03261563777167433; a row at ra = 0, dec = 0 with
    exactly that parallax satisfies the predicate and gets the distance
    30.660139378555062 and x equal to it, above max_distance_pc and so
    outside the axis range, with x^2 + y^2 above max_distance_pc^2. *)
Lemma C10_counterexample_rounding :
  Binary64.where_ (Binary64.min_parallax Binary64.hundred_lyr_pc)
    (Binary64.min_parallax Binary64.hundred_lyr_pc) = true
  /\ Binary64.distances [Binary64.min_parallax Binary64.hundred_lyr_pc]
     = [0x1.ea8fee4f1b21dp+4%float]
  /\ Binary64.x [0%float] [0%float]
       [Binary64.min_parallax Binary64.hundred_lyr_pc]
     = Some [0x1.ea8fee4f1b21dp+4%float]
  /\ Binary64.y [0%float] [0%float]
       [Binary64.min_parallax Binary64.hundred_lyr_pc]
     = Some [0%float]
  /\ PrimFloat.ltb Binary64.hundred_lyr_pc 0x1.ea8fee4f1b21dp+4%float = true
  /\ PrimFloat.ltb (Binary64.square Binary64.hundred_lyr_pc)
       (Binary64.norm2 0x1.ea8fee4f1b21dp+4%float 0%float) = true.
Proof. repeat split; vm_compute; reflexivity. Qed.

(** C10 (as amended).  In exact arithmetic: let max_distance_pc be a
    positive number m and let every row of the catalog's answer satisfy the
    query's predicate parallax >= 1/m.  Then every row is kept, its distance
    1/parallax is at most m, and its point has x^2 + y^2 <= m^2 and lies in
    the square [-m, m] x [-m, m], which is the axis range the script
    sets. *)
Theorem C10_within_max_distance
  (q : Quantity) (m : R) (gaia : Catalog)
  (Hm : Script.max_distance_pc q = Num m)
  (Hpos : 0 < m)
  (Hsel : forall r : CatalogRow,
      In r (gaia (Script.query q)) ->
      where_ (fdiv (Num 1) (Script.max_distance_pc q)) r = true) :
  min_parallax (Script.query q)
  = Some (fdiv (Num 1) (Script.max_distance_pc q))
  /\ (forall (i : nat) (r : CatalogRow),
         nth_error (gaia (Script.query q)) i = Some r ->
         exists d x y : R,
           nth_error (Script.distances (gaia (Script.query q))) i
           = Some (Num d)
           /\ nth_error (Script.x (gaia (Script.query q))) i = Some (Num x)
           /\ nth_error (Script.y (gaia (Script.query q))) i = Some (Num y)
           /\ d = 1 / parallax_of r
           /\ 0 < d <= m
           /\ x * x + y * y <= m * m
           /\ - m <= x <= m
           /\ - m <= y <= m)
  /\ (forall lo hi : num,
         In (set_xlim lo hi) (calls (Script.nearby_stars q gaia))
         \/ In (set_ylim lo hi) (calls (Script.nearby_stars q gaia)) ->
         lo = Num (- m) /\ hi = Num m)
  /\ (gaia (Script.query q) <> [] ->
      In (set_xlim (Num (- m)) (Num m)) (calls (Script.nearby_stars q gaia))
      /\ In (set_ylim (Num (- m)) (Num m))
           (calls (Script.nearby_stars q gaia))).
Proof.
  set (t := gaia (Script.query q)) in *.
  assert (Hthr : fdiv (Num 1) (Script.max_distance_pc q) = Num (1 / m)).
  { rewrite Hm. apply fdiv_Num. lra. }
  rewrite Hthr in Hsel.
  assert (Hall : FilteredSample t = t).
  { apply filter_all. intros r Hr.
    exact (proj1 (selected_is_kept m r Hpos (Hsel r Hr))). }
  split; [reflexivity|]. split; [|split].
  - intros i r Hi.
    assert (Hin : In r t) by (eapply nth_error_In; exact Hi).
    destruct (selected_is_kept m r Hpos (Hsel r Hin)) as [Hk Hle].
    rewrite <- Hall in Hi.
    destruct (point_of_kept t i r Hi) as (_ & Hd & Hx & Hy).
    pose proof (kept_distance_pos r Hk) as Hdpos.
    exists (distance_pc (project_row r)), (px (project_row r)),
      (py (project_row r)).
    split; [exact Hd|]. split; [exact Hx|]. split; [exact Hy|].
    cbn [project_row distance_pc px py] in *.
    set (d := 1 / parallax_of r) in *.
    pose proof (radius_sq d (deg2rad (dec r)) (deg2rad (ra r))) as Hr.
    pose proof (cos_sq_le_1 (deg2rad (dec r))) as Hc.
    set (x := d * cos (deg2rad (dec r)) * cos (deg2rad (ra r))) in *.
    set (y := d * cos (deg2rad (dec r)) * sin (deg2rad (ra r))) in *.
    set (c2 := cos (deg2rad (dec r)) * cos (deg2rad (dec r))) in *.
    assert (Hdd : d * d <= m * m) by nra.
    assert (H0 : 0 <= c2) by (unfold c2; nra).
    assert (Hxy : x * x + y * y <= m * m) by nra.
    split; [reflexivity|]. split; [lra|]. split; [exact Hxy|].
    split; split; nra.
  - intros lo hi H. rewrite nearby_stars_run in H. fold t in H.
    unfold script_run in H. rewrite Hm in H.
    destruct (List.length t =? 0)%nat;
      [|destruct (Script.star_sizes _); [|destruct (Script.star_colors _)]];
      simpl in H;
      repeat match goal with
             | H : _ \/ _ |- _ => destruct H
             | H : False |- _ => contradiction
             | H : _ = _ |- _ => first [discriminate H | injection H as <- <-]
             end;
      split; reflexivity.
  - intros Hne. rewrite nearby_stars_run. fold t.
    unfold script_run. rewrite Hm.
    destruct t as [|r t'] eqn:Ht; [congruence|]. cbn [List.length Nat.eqb].
    destruct (sizes_of_nonempty (Script.distances (r :: t'))) as (s & c & Hs & Hcol).
    { rewrite distances_project. unfold project. rewrite Hall. discriminate. }
    rewrite Hs, Hcol. simpl. split; auto 10.
Qed.

Lemma C10_witness :
  Script.max_distance_pc (mkQuantity (Num 2) pc) = Num 2
  /\ 0 < 2
  /\ (forall r : CatalogRow,
         In r (catalog_of [mkRow 1 0 0 (Some 1)]
                 (Script.query (mkQuantity (Num 2) pc))) ->
         where_ (fdiv (Num 1) (Script.max_distance_pc (mkQuantity (Num 2) pc)))
           r = true)
  /\ min_parallax (Script.query (mkQuantity (Num 2) pc))
     = Some (fdiv (Num 1) (Script.max_distance_pc (mkQuantity (Num 2) pc))).
Proof.
  assert (Ha : Script.max_distance_pc (mkQuantity (Num 2) pc) = Num 2)
    by reflexivity.
  assert (Hb : 0 < 2) by lra.
  assert (Hc : forall r : CatalogRow,
             In r (catalog_of [mkRow 1 0 0 (Some 1)]
                     (Script.query (mkQuantity (Num 2) pc))) ->
             where_ (fdiv (Num 1)
                       (Script.max_distance_pc (mkQuantity (Num 2) pc)))
               r = true).
  { intros r Hr. unfold catalog_of in Hr. cbn [Script.query min_parallax] in Hr.
    apply filter_In in Hr. exact (proj2 Hr). }
  split; [exact Ha|]. split; [exact Hb|]. split; [exact Hc|].
  exact (proj1 (C10_within_max_distance (mkQuantity (Num 2) pc) 2
                  (catalog_of [mkRow 1 0 0 (Some 1)]) Ha Hb Hc)).
Defined.

(** * Further properties of the two programs *)

(** ** The range of sizes and colours *)

(** A finite sample with two different distances has a minimum below its
    maximum, both in the sample. *)
Lemma spread_min_max (ds : list R) (a b : R) :
  In a ds -> In b ds -> a < b ->
  exists dmin dmax : R,
    np.min (map Num ds) = Some (Num dmin)
    /\ np.max (map Num ds) = Some (Num dmax)
    /\ dmin < dmax
    /\ In dmin ds /\ In dmax ds
    /\ (forall d, In d ds -> dmin <= d <= dmax).
Proof.
  intros Ha Hb Hab.
  assert (Hne : ds <> []) by (intros ->; contradiction).
  destruct (sample_min_max ds Hne) as (lo & hi & Hlo & Hhi & Hinlo & Hinhi & Hall).
  exists lo, hi. repeat split; try assumption; try (now apply Hall).
  pose proof (Hall a Ha). pose proof (Hall b Hb). lra.
Qed.

Lemma normalized_range (dmin dmax d : R) :
  dmin < dmax -> dmin <= d <= dmax -> 0 <= normalized dmin dmax d <= 1.
Proof.
  intros Hlt [Hlo Hhi].
  pose proof (normalized_mono dmin dmax dmin d Hlt Hlo) as H1.
  pose proof (normalized_mono dmin dmax d dmax Hlt Hhi) as H2.
  assert (H0 : normalized dmin dmax dmin = 0).
  { unfold normalized. replace (dmin - dmin) with 0 by lra.
    unfold Rdiv. apply Rmult_0_l. }
  assert (H3 : normalized dmin dmax dmax = 1).
  { unfold normalized. field. lra. }
  lra.
Qed.

Lemma normalized_at_min (dmin dmax : R) : normalized dmin dmax dmin = 0.
Proof.
  unfold normalized. replace (dmin - dmin) with 0 by lra.
  unfold Rdiv. apply Rmult_0_l.
Qed.

Lemma normalized_at_max (dmin dmax : R) :
  dmin < dmax -> normalized dmin dmax dmax = 1.
Proof. intros H. unfold normalized. field. lra. Qed.

(** X1.  On a sample of finite distances that are not all equal, every
    size the script computes is a number between 10 and 100; every star at
    the least distance gets the size 100 and every star at the greatest
    distance the size 10. *)
Theorem sizes_between_10_and_100
  (ds : list R) (a b : R)
  (Ha : In a ds) (Hb : In b ds) (Hab : a < b) :
  exists (sizes : list R) (dmin dmax : R),
    Script.star_sizes (map Num ds) = inr (map Num sizes)
    /\ In dmin ds /\ In dmax ds
    /\ (forall d, In d ds -> dmin <= d <= dmax)
    /\ (forall (i : nat) (d : R),
           nth_error ds i = Some d ->
           exists s : R,
             nth_error sizes i = Some s
             /\ 10 <= s <= 100
             /\ (d = dmin -> s = 100)
             /\ (d = dmax -> s = 10)).
Proof.
  destruct (spread_min_max ds a b Ha Hb Hab)
    as (dmin & dmax & Hmin & Hmax & Hlt & Hinlo & Hinhi & Hall).
  exists (map (fun d => size_of (normalized dmin dmax d)) ds), dmin, dmax.
  split; [|split; [|split; [|split]]]; try assumption.
  - unfold Script.star_sizes. rewrite Hmin, Hmax.
    unfold Script.max_star_size, Script.min_star_size.
    rewrite sizes_finite by exact Hlt. now rewrite map_map.
  - intros i d Hi. exists (size_of (normalized dmin dmax d)).
    split; [|split; [|split]].
    + exact (map_nth_error (fun d => size_of (normalized dmin dmax d)) i _ Hi).
    + pose proof (normalized_range dmin dmax d Hlt
                    (Hall d (nth_error_In _ _ Hi))) as Hn.
      unfold size_of, max_size, min_size. lra.
    + intros ->. rewrite normalized_at_min.
      unfold size_of, max_size, min_size. lra.
    + intros ->. rewrite normalized_at_max by exact Hlt.
      unfold size_of, max_size, min_size. lra.
Qed.

Lemma sizes_between_10_and_100_witness :
  In 1 [1; 2] /\ In 2 [1; 2] /\ 1 < 2
  /\ exists (sizes : list R) (dmin dmax : R),
      Script.star_sizes (map Num [1; 2]) = inr (map Num sizes)
      /\ In dmin [1; 2] /\ In dmax [1; 2]
      /\ (forall d, In d [1; 2] -> dmin <= d <= dmax)
      /\ (forall (i : nat) (d : R),
             nth_error [1; 2] i = Some d ->
             exists s : R,
               nth_error sizes i = Some s
               /\ 10 <= s <= 100
               /\ (d = dmin -> s = 100)
               /\ (d = dmax -> s = 10)).
Proof.
  assert (Ha : In 1 [1; 2]) by (left; reflexivity).
  assert (Hb : In 2 [1; 2]) by (right; left; reflexivity).
  assert (Hab : 1 < 2) by lra.
  split; [exact Ha|]. split; [exact Hb|]. split; [exact Hab|].
  exact (sizes_between_10_and_100 [1; 2] 1 2 Ha Hb Hab).
Defined.

(** X2.  On such a sample the value the script hands to the colour map lies
    between 0 and 1; every star at the least distance gets coolwarm(1) and
    every star at the greatest distance coolwarm(0). *)
Theorem colors_between_0_and_1
  (ds : list R) (a b : R)
  (Ha : In a ds) (Hb : In b ds) (Hab : a < b) :
  exists (cs : list R) (dmin dmax : R),
    Script.star_colors (map Num ds) = inr (map (fun c => coolwarm (Num c)) cs)
    /\ In dmin ds /\ In dmax ds
    /\ (forall d, In d ds -> dmin <= d <= dmax)
    /\ (forall (i : nat) (d : R),
           nth_error ds i = Some d ->
           exists c : R,
             nth_error cs i = Some c
             /\ 0 <= c <= 1
             /\ (d = dmin -> c = 1)
             /\ (d = dmax -> c = 0)).
Proof.
  destruct (spread_min_max ds a b Ha Hb Hab)
    as (dmin & dmax & Hmin & Hmax & Hlt & Hinlo & Hinhi & Hall).
  exists (map (fun d => color_of (normalized dmin dmax d)) ds), dmin, dmax.
  split; [|split; [|split; [|split]]]; try assumption.
  - unfold Script.star_colors. rewrite Hmin, Hmax.
    rewrite colors_finite by exact Hlt. now rewrite map_map.
  - intros i d Hi. exists (color_of (normalized dmin dmax d)).
    split; [|split; [|split]].
    + exact (map_nth_error (fun d => color_of (normalized dmin dmax d)) i _ Hi).
    + pose proof (normalized_range dmin dmax d Hlt
                    (Hall d (nth_error_In _ _ Hi))) as Hn.
      unfold color_of. lra.
    + intros ->. rewrite normalized_at_min. unfold color_of. lra.
    + intros ->. rewrite normalized_at_max by exact Hlt. unfold color_of. lra.
Qed.

Lemma colors_between_0_and_1_witness :
  In 1 [1; 2] /\ In 2 [1; 2] /\ 1 < 2
  /\ exists (cs : list R) (dmin dmax : R),
      Script.star_colors (map Num [1; 2])
      = inr (map (fun c => coolwarm (Num c)) cs)
      /\ In dmin [1; 2] /\ In dmax [1; 2]
      /\ (forall d, In d [1; 2] -> dmin <= d <= dmax)
      /\ (forall (i : nat) (d : R),
             nth_error [1; 2] i = Some d ->
             exists c : R,
               nth_error cs i = Some c
               /\ 0 <= c <= 1
               /\ (d = dmin -> c = 1)
               /\ (d = dmax -> c = 0)).
Proof.
  assert (Ha : In 1 [1; 2]) by (left; reflexivity).
  assert (Hb : In 2 [1; 2]) by (right; left; reflexivity).
  assert (Hab : 1 < 2) by lra.
  split; [exact Ha|]. split; [exact Hb|]. split; [exact Hab|].
  exact (colors_between_0_and_1 [1; 2] 1 2 Ha Hb Hab).
Defined.

(** ** Samples without spread *)

Lemma fold_minimum_repeat (d : R) (n : nat) :
  fold_left np.minimum (repeat (Num d) n) (Num d) = Num d.
Proof.
  induction n as [|n IH]; simpl; [reflexivity|].
  unfold np.minimum at 2. simpl. rewrite Rltb_false by lra. exact IH.
Qed.

Lemma fold_maximum_repeat (d : R) (n : nat) :
  fold_left np.maximum (repeat (Num d) n) (Num d) = Num d.
Proof.
  induction n as [|n IH]; simpl; [reflexivity|].
  unfold np.maximum at 2. simpl. rewrite Rltb_false by lra. exact IH.
Qed.

(** X3.  When all the distances of a sample are equal, whatever their
    number, the script divides 0 by 0 for every star: all the sizes are NaN
    and every colour is the colour map at NaN.  Nothing is raised. *)
Theorem equal_distances_give_nan (d : R) (n : nat) :
  Script.star_sizes (repeat (Num d) (S n)) = inr (repeat NaN (S n))
  /\ Script.star_colors (repeat (Num d) (S n))
     = inr (repeat (coolwarm NaN) (S n)).
Proof.
  assert (Hmin : np.min (repeat (Num d) (S n)) = Some (Num d)).
  { simpl. now rewrite fold_minimum_repeat. }
  assert (Hmax : np.max (repeat (Num d) (S n)) = Some (Num d)).
  { simpl. now rewrite fold_maximum_repeat. }
  assert (Hnan : fsub (Num 1)
                   (fdiv (fsub (Num d) (Num d)) (fsub (Num d) (Num d)))
                 = NaN).
  { unfold fsub. simpl. rewrite Reqb_true by lra.
    unfold sgn. now rewrite !Rltb_false by lra. }
  unfold Script.star_sizes, Script.star_colors. rewrite Hmin, Hmax.
  unfold np.add_s, np.mul_s, np.rsub, np.div_s, np.sub_s.
  rewrite !map_repeat, Hnan. split; reflexivity.
Qed.

(** ** Sizes and colours are relative *)

Lemma fold_minimum_scale (k : R) (ds : list R) :
  0 < k ->
  forall d m : R,
    fold_left np.minimum (map Num ds) (Num d) = Num m ->
    fold_left np.minimum (map Num (map (Rmult k) ds)) (Num (k * d))
    = Num (k * m).
Proof.
  intros Hk. induction ds as [|e ds IH]; intros d m; simpl.
  - intros [= <-]. reflexivity.
  - unfold np.minimum at 2 4. simpl. unfold Rltb.
    destruct (Rlt_dec e d) as [Hlt | Hge];
      destruct (Rlt_dec (k * e) (k * d)) as [Hlt' | Hge']; try nra;
      apply IH.
Qed.

Lemma fold_maximum_scale (k : R) (ds : list R) :
  0 < k ->
  forall d m : R,
    fold_left np.maximum (map Num ds) (Num d) = Num m ->
    fold_left np.maximum (map Num (map (Rmult k) ds)) (Num (k * d))
    = Num (k * m).
Proof.
  intros Hk. induction ds as [|e ds IH]; intros d m; simpl.
  - intros [= <-]. reflexivity.
  - unfold np.maximum at 2 4. simpl. unfold Rltb.
    destruct (Rlt_dec d e) as [Hlt | Hge];
      destruct (Rlt_dec (k * d) (k * e)) as [Hlt' | Hge']; try nra;
      apply IH.
Qed.

Lemma sgn_scale (k u : R) : 0 < k -> sgn (k * u) = sgn u.
Proof.
  intros Hk. unfold sgn, Rltb.
  destruct (Rlt_dec 0 u); destruct (Rlt_dec 0 (k * u)); try nra;
    try reflexivity;
    destruct (Rlt_dec u 0); destruct (Rlt_dec (k * u) 0); try nra;
    reflexivity.
Qed.

Lemma fdiv_scale (k u v : R) :
  0 < k -> fdiv (Num (k * u)) (Num (k * v)) = fdiv (Num u) (Num v).
Proof.
  intros Hk. simpl. unfold Reqb.
  destruct (Req_dec_T v 0) as [Hv | Hv];
    destruct (Req_dec_T (k * v) 0) as [Hkv | Hkv]; try nra.
  - now rewrite sgn_scale.
  - f_equal. field. lra.
Qed.

Lemma bracket_scale (k dmin dmax : R) (ds : list R) :
  0 < k ->
  np.rsub (Num 1)
    (np.div_s (np.sub_s (map Num (map (Rmult k) ds)) (Num (k * dmin)))
       (fsub (Num (k * dmax)) (Num (k * dmin))))
  = np.rsub (Num 1)
      (np.div_s (np.sub_s (map Num ds) (Num dmin))
         (fsub (Num dmax) (Num dmin))).
Proof.
  intros Hk. unfold np.rsub, np.div_s, np.sub_s. rewrite !map_map.
  apply map_ext. intros d. f_equal.
  unfold fsub, fneg, fadd.
  replace (k * d + - (k * dmin)) with (k * (d + - dmin)) by ring.
  replace (k * dmax + - (k * dmin)) with (k * (dmax + - dmin)) by ring.
  now apply fdiv_scale.
Qed.

(** X4.  In exact arithmetic, sizes and colours depend on the distances
    only relatively: multiplying every distance of a finite sample by the
    same positive factor (another unit of length) changes neither, whatever
    the sample, empty and degenerate ones included. *)
Theorem sizes_and_colors_scale_free
  (ds : list R) (k : R) (Hk : 0 < k) :
  Script.star_sizes (map Num (map (Rmult k) ds))
  = Script.star_sizes (map Num ds)
  /\ Script.star_colors (map Num (map (Rmult k) ds))
     = Script.star_colors (map Num ds).
Proof.
  destruct ds as [|d ds]; [split; reflexivity|].
  destruct (sample_min_max (d :: ds)) as (lo & hi & Hlo & Hhi & _);
    [discriminate|].
  assert (Hlo' : np.min (map Num (map (Rmult k) (d :: ds)))
                 = Some (Num (k * lo))).
  { simpl in *. injection Hlo as Hlo.
    now rewrite (fold_minimum_scale k ds Hk d lo Hlo). }
  assert (Hhi' : np.max (map Num (map (Rmult k) (d :: ds)))
                 = Some (Num (k * hi))).
  { simpl in *. injection Hhi as Hhi.
    now rewrite (fold_maximum_scale k ds Hk d hi Hhi). }
  unfold Script.star_sizes, Script.star_colors.
  rewrite Hlo, Hhi, Hlo', Hhi'.
  rewrite (bracket_scale k lo hi (d :: ds) Hk). split; reflexivity.
Qed.

Lemma sizes_and_colors_scale_free_witness :
  0 < 3
  /\ Script.star_sizes (map Num (map (Rmult 3) [1; 2]))
     = Script.star_sizes (map Num [1; 2]).
Proof.
  assert (Hk : 0 < 3) by lra.
  split; [exact Hk|].
  exact (proj1 (sizes_and_colors_scale_free [1; 2] 3 Hk)).
Defined.

(** ** Nearer is larger *)



(** ** How a run of the script ends *)

Lemma distances_length (t : ResultSet) :
  List.length (Script.distances t) = List.length (FilteredSample t).
Proof.
  rewrite distances_project. unfold project. now rewrite !length_map.
Qed.

Lemma x_length (t : ResultSet) :
  List.length (Script.x t) = List.length (FilteredSample t).
Proof. rewrite x_project. unfold project. now rewrite !length_map. Qed.

Lemma y_length (t : ResultSet) :
  List.length (Script.y t) = List.length (FilteredSample t).
Proof. rewrite y_project. unfold project. now rewrite !length_map. Qed.

Lemma distances_nil (t : ResultSet) :
  Script.distances t = [] <-> FilteredSample t = [].
Proof.
  pose proof (distances_length t) as H. split; intros E; rewrite E in H.
  - destruct (FilteredSample t); [reflexivity | discriminate].
  - destruct (Script.distances t); [reflexivity | discriminate].
Qed.

Lemma sizes_length (ds sizes : list num) :
  Script.star_sizes ds = inr sizes -> List.length sizes = List.length ds.
Proof.
  unfold Script.star_sizes.
  destruct (np.min ds); [|discriminate]. destruct (np.max ds); [|discriminate].
  intros [= <-].
  unfold np.add_s, np.mul_s, np.rsub, np.div_s, np.sub_s.
  now rewrite !length_map.
Qed.

Lemma colors_length (ds : list num) (colors : list color) :
  Script.star_colors ds = inr colors -> List.length colors = List.length ds.
Proof.
  unfold Script.star_colors.
  destruct (np.min ds); [|discriminate]. destruct (np.max ds); [|discriminate].
  intros [= <-].
  unfold np.rsub, np.div_s, np.sub_s.
  now rewrite !length_map.
Qed.

(** The three ways a run of [nearby_stars] can go, by the table the catalog
    answers with. *)
Lemma script_run_cases (q : Quantity) (t : ResultSet) :
  (t = []
   /\ script_run q t
      = mkRun [ launch_job (Script.query q);
                print "No nearby stars found within the specified distance." ]
          (inr tt))
  \/ (t <> [] /\ FilteredSample t = []
      /\ script_run q t
         = mkRun [ launch_job (Script.query q);
                   subplots 10 10;
                   sun_glow (Script.sun_size * 0.7);
                   scatter_sun Script.sun_size ]
             (inl empty_reduction))
  \/ (FilteredSample t <> []
      /\ exists (s : list num) (c : list color),
          Script.star_sizes (Script.distances t) = inr s
          /\ Script.star_colors (Script.distances t) = inr c
          /\ script_run q t
             = mkRun [ launch_job (Script.query q);
                       subplots 10 10;
                       sun_glow (Script.sun_size * 0.7);
                       scatter_sun Script.sun_size;
                       scatter_stars (Script.x t) (Script.y t) c s;
                       set_xlim (fneg (Script.max_distance_pc q))
                         (Script.max_distance_pc q);
                       set_ylim (fneg (Script.max_distance_pc q))
                         (Script.max_distance_pc q);
                       decorate q;
                       show ]
                 (inr tt)).
Proof.
  destruct t as [|r t'] eqn:Et; [left; split; reflexivity|]. rewrite <- Et.
  assert (Hne : t <> []) by (rewrite Et; discriminate).
  assert (Hlen : (List.length t =? 0)%nat = false) by now rewrite Et.
  destruct (FilteredSample t) as [|k ks] eqn:Ek.
  - right. left. split; [exact Hne|]. split; [reflexivity|].
    unfold script_run. rewrite Hlen.
    rewrite (proj2 (distances_nil t) Ek). reflexivity.
  - right. right. split; [discriminate|].
    destruct (sizes_of_nonempty (Script.distances t)) as (s & c & Hs & Hc).
    { intros E. apply distances_nil in E. rewrite Ek in E. discriminate. }
    exists s, c. split; [exact Hs|]. split; [exact Hc|].
    unfold script_run. now rewrite Hlen, Hs, Hc.
Qed.

(** X6.  A run of [nearby_stars] raises the ValueError of the reduction of
    an empty array exactly when the catalog's table is not empty and none of
    its rows has a positive parallax; the figure and the Sun have then been
    drawn, and nothing else. *)
Theorem nearby_stars_raises_iff (q : Quantity) (gaia : Catalog) :
  (outcome (Script.nearby_stars q gaia) = inl empty_reduction
   <-> gaia (Script.query q) <> []
       /\ FilteredSample (gaia (Script.query q)) = [])
  /\ (outcome (Script.nearby_stars q gaia) = inl empty_reduction ->
      calls (Script.nearby_stars q gaia)
      = [ launch_job (Script.query q);
          subplots 10 10;
          sun_glow (Script.sun_size * 0.7);
          scatter_sun Script.sun_size ]).
Proof.
  rewrite nearby_stars_run.
  destruct (script_run_cases q (gaia (Script.query q)))
    as [(Ht & Hr) | [(Hne & Hk & Hr) | (Hk & s & c & _ & _ & Hr)]];
    rewrite Hr; cbn [outcome calls]; split.
  - split; [discriminate | intros (Hne & _); contradiction].
  - discriminate.
  - split; [intros _; now split | reflexivity].
  - reflexivity.
  - split; [discriminate | intros (_ & Hk'); contradiction].
  - discriminate.
Qed.

(** X7.  Every run of [nearby_stars] sends exactly one query to the catalog,
    and sends it before anything is printed or drawn. *)
Theorem one_query_before_anything (q : Quantity) (gaia : Catalog) :
  exists rest : list call,
    calls (Script.nearby_stars q gaia) = launch_job (Script.query q) :: rest
    /\ existsb is_query rest = false.
Proof.
  rewrite nearby_stars_run.
  destruct (script_run_cases q (gaia (Script.query q)))
    as [(Ht & Hr) | [(Hne & Hk & Hr) | (Hk & s & c & _ & _ & Hr)]];
    rewrite Hr; cbn [calls]; eexists; split; reflexivity.
Qed.

(** X8.  The script calls [scatter] for the stars exactly when some row of
    the catalog's table has a positive parallax, and then calls it once,
    after the Sun has been drawn. *)
Theorem stars_drawn_iff_kept_row (q : Quantity) (gaia : Catalog) :
  (existsb is_stars (calls (Script.nearby_stars q gaia)) = true
   <-> FilteredSample (gaia (Script.query q)) <> [])
  /\ (existsb is_stars (calls (Script.nearby_stars q gaia)) = true ->
      exists (c : list color) (s : list num) (rest : list call),
        calls (Script.nearby_stars q gaia)
        = launch_job (Script.query q)
          :: subplots 10 10
          :: sun_glow (Script.sun_size * 0.7)
          :: scatter_sun Script.sun_size
          :: scatter_stars (Script.x (gaia (Script.query q)))
               (Script.y (gaia (Script.query q))) c s
          :: rest
        /\ existsb is_stars rest = false).
Proof.
  rewrite nearby_stars_run.
  destruct (script_run_cases q (gaia (Script.query q)))
    as [(Ht & Hr) | [(Hne & Hk & Hr) | (Hk & s & c & _ & _ & Hr)]];
    rewrite Hr; cbn [calls]; split.
  - rewrite Ht. split; [discriminate | intros H; now contradiction H].
  - discriminate.
  - rewrite Hk. split; [discriminate | intros H; now contradiction H].
  - discriminate.
  - split; [intros _; exact Hk | reflexivity].
  - intros _. exists c, s. eexists. split; reflexivity.
Qed.

(** X9.  Whenever the script calls [scatter] for the stars, the arrays of
    x, of y, of colours and of sizes all have one entry per kept row of the
    table. *)
Theorem scatter_arrays_agree (q : Quantity) (gaia : Catalog) :
  Forall
    (fun c =>
       match c with
       | scatter_stars x y colors sizes =>
           List.length x = List.length (FilteredSample (gaia (Script.query q)))
           /\ List.length y = List.length x
           /\ List.length colors = List.length x
           /\ List.length sizes = List.length x
       | _ => True
       end)
    (calls (Script.nearby_stars q gaia)).
Proof.
  rewrite nearby_stars_run.
  destruct (script_run_cases q (gaia (Script.query q)))
    as [(Ht & Hr) | [(Hne & Hk & Hr) | (Hk & s & c & Hs & Hc & Hr)]];
    rewrite Hr; cbn [calls]; repeat constructor.
  - apply x_length.
  - now rewrite x_length, y_length.
  - rewrite (colors_length _ _ Hc), distances_length. now rewrite x_length.
  - rewrite (sizes_length _ _ Hs), distances_length. now rewrite x_length.
Qed.

(** ** The front end *)





(** ** A positive distance and a catalog that honours the query *)

(** X12.  When max_distance_pc is a positive number and the catalog
    answers with the rows of its data that satisfy the WHERE clause, every
    row of the answer is kept, whatever the catalog holds: the script does
    not raise the ValueError of the reduction of an empty array, and it
    calls [scatter] for the stars exactly when the answer is not empty. *)
Theorem positive_distance_keeps_every_row
  (q : Quantity) (m : R) (db : ResultSet)
  (Hm : Script.max_distance_pc q = Num m) (Hpos : 0 < m) :
  FilteredSample (catalog_of db (Script.query q))
  = catalog_of db (Script.query q)
  /\ outcome (Script.nearby_stars q (catalog_of db)) <> inl empty_reduction
  /\ (existsb is_stars (calls (Script.nearby_stars q (catalog_of db))) = true
      <-> catalog_of db (Script.query q) <> []).
Proof.
  set (t := catalog_of db (Script.query q)).
  assert (Ht : t = filter (where_ (Num (1 / m))) db).
  { unfold t, catalog_of, Script.query, min_parallax. rewrite Hm.
    now rewrite fdiv_Num by lra. }
  assert (Hall : FilteredSample t = t).
  { apply filter_all. intros r Hr. rewrite Ht in Hr.
    apply filter_In in Hr as [_ Hw].
    exact (proj1 (selected_is_kept _ r Hpos Hw)). }
  split; [exact Hall|].
  rewrite nearby_stars_run. fold t.
  destruct (script_run_cases q t)
    as [(Hnil & Hr) | [(Hne & Hk0 & _) | (Hk & s & c & _ & _ & Hr)]].
  - rewrite Hr. cbn [outcome calls]. split; [discriminate|].
    split; [discriminate | intros H; now contradiction H].
  - rewrite Hall in Hk0. contradiction.
  - rewrite Hr. cbn [outcome calls]. split; [discriminate|].
    rewrite Hall in Hk. split; [intros _; exact Hk | reflexivity].
Qed.

Lemma positive_distance_keeps_every_row_witness :
  Script.max_distance_pc (mkQuantity (Num 2) pc) = Num 2 /\ 0 < 2
  /\ FilteredSample
       (catalog_of [mkRow 1 0 0 (Some (-1)); mkRow 2 0 0 (Some 1)]
          (Script.query (mkQuantity (Num 2) pc)))
     = catalog_of [mkRow 1 0 0 (Some (-1)); mkRow 2 0 0 (Some 1)]
         (Script.query (mkQuantity (Num 2) pc)).
Proof.
  assert (Hm : Script.max_distance_pc (mkQuantity (Num 2) pc) = Num 2)
    by reflexivity.
  assert (Hpos : 0 < 2) by lra.
  split; [exact Hm|]. split; [exact Hpos|].
  exact (proj1 (positive_distance_keeps_every_row (mkQuantity (Num 2) pc) 2
                  [mkRow 1 0 0 (Some (-1)); mkRow 2 0 0 (Some 1)] Hm Hpos)).
Defined.

(** ** Shape of the projection *)

(** X13.  Each star is projected on its own: the distances, x and y of two
    tables put end to end are those of the first followed by those of the
    second. *)
Theorem projection_of_appended_tables (t1 t2 : ResultSet) :
  Script.distances (t1 ++ t2) = Script.distances t1 ++ Script.distances t2
  /\ Script.x (t1 ++ t2) = Script.x t1 ++ Script.x t2
  /\ Script.y (t1 ++ t2) = Script.y t1 ++ Script.y t2.
Proof.
  rewrite !distances_project, !x_project, !y_project.
  unfold project, FilteredSample.
  rewrite filter_app, !map_app. repeat split; reflexivity.
Qed.

Lemma project_single (r : CatalogRow) :
  project [r] = if kept r then [project_row r] else [].
Proof.
  unfold project, FilteredSample. simpl. now destruct (kept r).
Qed.

Lemma deg2rad_opp (a : R) : deg2rad (- a) = - deg2rad a.
Proof. unfold deg2rad. ring. Qed.

Lemma deg2rad_half_turn (a : R) : deg2rad (a + 180) = deg2rad a + PI.
Proof. unfold deg2rad. field. Qed.

(** X14.  The projection does not see the sign of the declination: a star
    at (ra, -dec) gets the distance, the x and the y of a star at (ra, dec)
    with the same parallax. *)
Theorem projection_symmetries
  (id1 id2 : Z) (a d : R) (p : option R) :
  Script.distances [mkRow id1 a (- d) p] = Script.distances [mkRow id2 a d p]
  /\ Script.x [mkRow id1 a (- d) p] = Script.x [mkRow id2 a d p]
  /\ Script.y [mkRow id1 a (- d) p] = Script.y [mkRow id2 a d p].
Proof.
  rewrite !distances_project, !x_project, !y_project, !project_single.
  unfold kept, project_row, parallax_of. cbn [parallax ra dec].
  destruct p as [p|]; [|repeat split; reflexivity].
  destruct (Rltb 0 p); [|repeat split; reflexivity].
  cbn [map distance_pc px py].
  rewrite deg2rad_opp, cos_neg.
  repeat split; reflexivity.
Qed.

(** X18.  In exact arithmetic, a star half a turn away in right ascension
    (ra + 180 degrees, same dec and parallax) has the same distance and
    lands on the opposite point: x and y change sign. *)
Theorem half_turn_opposite_point
  (id1 id2 : Z) (a d : R) (p : option R) :
  Script.distances [mkRow id1 (a + 180) d p]
  = Script.distances [mkRow id2 a d p]
  /\ Script.x [mkRow id1 (a + 180) d p]
     = map fneg (Script.x [mkRow id2 a d p])
  /\ Script.y [mkRow id1 (a + 180) d p]
     = map fneg (Script.y [mkRow id2 a d p]).
Proof.
  rewrite !distances_project, !x_project, !y_project, !project_single.
  unfold kept, project_row, parallax_of. cbn [parallax ra dec].
  destruct p as [p|]; [|repeat split; reflexivity].
  destruct (Rltb 0 p); [|repeat split; reflexivity].
  cbn [map distance_pc px py fneg].
  rewrite deg2rad_half_turn, neg_cos, neg_sin.
  repeat split; do 2 f_equal; ring.
Qed.

(** X15.  A kept row at a celestial pole (dec = 90 or dec = -90 degrees) is
    drawn at the origin, on the Sun, whatever its right ascension and its
    distance. *)
Theorem poles_project_on_the_sun
  (t : ResultSet) (i : nat) (r : CatalogRow)
  (Hi : nth_error (FilteredSample t) i = Some r)
  (Hdec : dec r = 90 \/ dec r = -90) :
  nth_error (Script.x t) i = Some (Num 0)
  /\ nth_error (Script.y t) i = Some (Num 0).
Proof.
  destruct (point_of_kept t i r Hi) as (_ & _ & Hx & Hy).
  assert (Hc : cos (deg2rad (dec r)) = 0).
  { destruct Hdec as [-> | ->].
    - unfold deg2rad. replace (90 * (PI / 180)) with (PI / 2) by lra.
      apply cos_PI2.
    - unfold deg2rad. replace (-90 * (PI / 180)) with (- (PI / 2)) by lra.
      rewrite cos_neg. apply cos_PI2. }
  cbn [project_row px py] in Hx, Hy. rewrite Hc in Hx, Hy.
  rewrite Hx, Hy. split; do 2 f_equal; ring.
Qed.

Lemma poles_project_on_the_sun_witness :
  nth_error (FilteredSample [mkRow 1 30 90 (Some 2)]) 0
  = Some (mkRow 1 30 90 (Some 2))
  /\ (dec (mkRow 1 30 90 (Some 2)) = 90 \/ dec (mkRow 1 30 90 (Some 2)) = -90)
  /\ nth_error (Script.x [mkRow 1 30 90 (Some 2)]) 0 = Some (Num 0).
Proof.
  assert (Hi : nth_error (FilteredSample [mkRow 1 30 90 (Some 2)]) 0
               = Some (mkRow 1 30 90 (Some 2))).
  { unfold FilteredSample, filter, kept. simpl.
    now rewrite Rltb_true by lra. }
  assert (Hd : dec (mkRow 1 30 90 (Some 2)) = 90
               \/ dec (mkRow 1 30 90 (Some 2)) = -90) by (left; reflexivity).
  split; [exact Hi|]. split; [exact Hd|].
  exact (proj1 (poles_project_on_the_sun _ 0%nat _ Hi Hd)).
Defined.

(** ** Blank input *)

Lemma blank_not_underscore (c : ascii) :
  pyfloat.is_blank c = true -> Ascii.eqb c "_" = false.
Proof.
  destruct c as [[] [] [] [] [] [] [] []]; intros H;
    try reflexivity; discriminate H.
Qed.

Lemma underscores_blank (s : list ascii) :
  forallb pyfloat.is_blank s = true ->
  forall prev, Ascii.eqb prev "_" = false ->
               pyfloat.underscores prev s = Some s.
Proof.
  induction s as [|c s IH]; intros Hs prev Hprev; simpl.
  - now rewrite Hprev.
  - simpl in Hs. apply andb_true_iff in Hs as [Hc Hs].
    rewrite (blank_not_underscore c Hc), Hprev. simpl.
    now rewrite (IH Hs c (blank_not_underscore c Hc)).
Qed.

Lemma lstrip_blank (s : list ascii) :
  forallb pyfloat.is_blank s = true ->
  forallb pyfloat.is_blank (pyfloat.lstrip s) = true.
Proof.
  induction s as [|c s IH]; simpl; [reflexivity|].
  intros Hs. apply andb_true_iff in Hs as [Hc Hs].
  destruct (pyfloat.is_space c); [now apply IH|].
  simpl. now rewrite Hc, Hs.
Qed.

Lemma rev_blank (s : list ascii) :
  forallb pyfloat.is_blank s = true ->
  forallb pyfloat.is_blank (rev s) = true.
Proof.
  intros H. apply forallb_forall. intros c Hc. apply in_rev in Hc.
  exact (proj1 (forallb_forall _ _) H c Hc).
Qed.

Lemma strip_blank (s : list ascii) :
  forallb pyfloat.is_blank s = true ->
  forallb pyfloat.is_blank (pyfloat.strip s) = true.
Proof.
  intros H. unfold pyfloat.strip.
  apply rev_blank, lstrip_blank, rev_blank, lstrip_blank, H.
Qed.

(** A text made of such characters only is no number. *)
Lemma parse_blank (text : string) :
  forallb pyfloat.is_blank (list_ascii_of_string text) = true ->
  pyfloat.parse text = None.
Proof.
  intros Hblank. unfold pyfloat.parse.
  rewrite (underscores_blank _ Hblank "000"%char eq_refl).
  generalize (strip_blank _ Hblank).
  generalize (pyfloat.strip (list_ascii_of_string text)).
  intros b Hb. destruct b as [|c b]; [reflexivity|].
  simpl in Hb. apply andb_true_iff in Hb as [Hc _].
  destruct c as [[] [] [] [] [] [] [] []]; try discriminate Hc; reflexivity.
Qed.

(** X16.  A text made of white space only, the empty text included, is not
    read as a number: both programs raise the ValueError of [float] and
    make no call, so no query is sent. *)
Theorem blank_text_rejected
  (text : string) (gaia : Catalog)
  (Hblank : forallb pyfloat.is_blank (list_ascii_of_string text) = true) :
  float text = None
  /\ Script.main text gaia = mkRun [] (inl not_a_float)
  /\ Gui.plot_nearby_stars text gaia = mkRun [] (inl not_a_float).
Proof.
  assert (Hf : float text = None).
  { unfold float. now rewrite (parse_blank text Hblank). }
  split; [exact Hf|].
  unfold Script.main, Gui.plot_nearby_stars. rewrite Hf.
  split; reflexivity.
Qed.

Lemma blank_text_rejected_witness :
  forallb pyfloat.is_blank (list_ascii_of_string "  ") = true
  /\ float "  " = None.
Proof.
  split; [reflexivity|].
  exact (proj1 (blank_text_rejected "  " (fun _ => []) eq_refl)).
Defined.

(** ** A larger distance *)

Lemma lyr_in_pc_lower : 1 / 4 < lyr_in_pc.
Proof.
  pose proof PI2_3_2 as Hpi.
  unfold lyr_in_pc.
  replace (299792458 * 31557600 / (149597870700 * 648000 / PI))
    with (PI * (299792458 * 31557600 / (149597870700 * 648000)))
    by (field; lra).
  apply Rlt_trans
    with (3 * (299792458 * 31557600 / (149597870700 * 648000))); [lra|].
  apply Rmult_lt_compat_r; lra.
Qed.

Lemma query_threshold_lyr (v : R) :
  0 < v ->
  min_parallax (Script.query (mkQuantity (Num v) lyr))
  = Some (Num (1 / (v * lyr_in_pc))).
Proof.
  intros Hv. pose proof lyr_in_pc_bounds as Hk.
  assert (Hm : 0 < v * lyr_in_pc) by (apply Rmult_lt_0_compat; lra).
  unfold Script.query, min_parallax, Script.max_distance_pc, to_pc.
  cbn [unit_ value fmul]. now rewrite fdiv_Num by lra.
Qed.

(** X17.  With a catalog that answers with the rows of its data satisfying
    the WHERE clause, typing a larger positive distance never loses a star:
    every row answered for the smaller distance is answered for the larger
    one. *)
Theorem larger_distance_selects_more
  (v1 v2 : R) (db : ResultSet) (r : CatalogRow)
  (H1 : 0 < v1) (H12 : v1 <= v2)
  (Hr : In r (catalog_of db (Script.query (mkQuantity (Num v1) lyr)))) :
  In r (catalog_of db (Script.query (mkQuantity (Num v2) lyr))).
Proof.
  pose proof lyr_in_pc_bounds as Hk.
  assert (H2 : 0 < v2) by lra.
  assert (Hm1 : 0 < v1 * lyr_in_pc) by (apply Rmult_lt_0_compat; lra).
  assert (Hm2 : 0 < v2 * lyr_in_pc) by (apply Rmult_lt_0_compat; lra).
  unfold catalog_of in *.
  rewrite (query_threshold_lyr v1 H1) in Hr.
  rewrite (query_threshold_lyr v2 H2).
  apply filter_In in Hr as [Hin Hw]. apply filter_In. split; [exact Hin|].
  apply where_Num in Hw as (p & Hp & Hle). apply where_Num.
  exists p. split; [exact Hp|].
  apply Rle_trans with (1 / (v1 * lyr_in_pc)); [|exact Hle].
  unfold Rdiv. rewrite !Rmult_1_l.
  apply Rinv_le_contravar; [exact Hm1|].
  apply Rmult_le_compat_r; lra.
Qed.

Lemma larger_distance_selects_more_witness :
  0 < 10 /\ 10 <= 20
  /\ In (mkRow 1 0 0 (Some 1))
       (catalog_of [mkRow 1 0 0 (Some 1)]
          (Script.query (mkQuantity (Num 10) lyr)))
  /\ In (mkRow 1 0 0 (Some 1))
       (catalog_of [mkRow 1 0 0 (Some 1)]
          (Script.query (mkQuantity (Num 20) lyr))).
Proof.
  assert (H1 : 0 < 10) by lra.
  assert (H12 : 10 <= 20) by lra.
  assert (Hr : In (mkRow 1 0 0 (Some 1))
                 (catalog_of [mkRow 1 0 0 (Some 1)]
                    (Script.query (mkQuantity (Num 10) lyr)))).
  { pose proof lyr_in_pc_lower as Hk.
    unfold catalog_of. rewrite (query_threshold_lyr 10 H1).
    apply filter_In. split; [left; reflexivity|].
    apply where_Num. exists 1. split; [reflexivity|].
    assert (Hm : 1 < 10 * lyr_in_pc) by lra.
    unfold Rdiv. rewrite Rmult_1_l.
    apply Rmult_le_reg_r with (10 * lyr_in_pc); [lra|].
    rewrite Rinv_l by lra. lra. }
  split; [exact H1|]. split; [exact H12|]. split; [exact Hr|].
  exact (larger_distance_selects_more 10 20 _ _ H1 H12 Hr).
Defined.
